(** * kernel_gateway/services/notebooks/handlers.py

    A shallow embedding of [NotebookAPIHandler]: the message callback
    [on_recv] (the correlator) and the coroutine [_handle_request] (the
    bridge between one HTTP request and one leased kernel), together with
    the properties the specification states about them. *)

From Stdlib Require Import ZArith List String Ascii Bool Lia.
From Stdlib Require Import DecimalString.
Import ListNotations.
Local Open Scope string_scope.
Local Open Scope Z_scope.
Local Set Warnings "-register-all".

(** ** Python values

    Kernel messages are deserialised JSON: [None], booleans, integers,
    strings, lists and dicts with string keys.  A dict keeps its insertion
    order, so it is an association list.  A str is a sequence of
    characters; the model has the characters with code point below 256,
    one [ascii] each.  Floats are not modelled. *)

Inductive pyval : Type :=
| PyNone
| PyBool (b : bool)
| PyInt (z : Z)
| PyStr (s : string)
| PyList (l : list pyval)
| PyDict (d : list (string * pyval)).

(** The exceptions the handler's own expressions can raise, the one a
    future raises when it is resolved twice, and one constructor for
    whatever a collaborator outside this file raises. *)
Inductive exn : Type :=
| KeyError (key : string)
| TypeError
| AttributeError (attr : string)
| InvalidStateError
| External (what : string).

Inductive res (A : Type) : Type :=
| Return (a : A)
| Raise (e : exn).
Arguments Return {A} a.
Arguments Raise {A} e.

Definition res_bind {A B} (m : res A) (k : A -> res B) : res B :=
  match m with
  | Return a => k a
  | Raise e => Raise e
  end.

Declare Scope res_scope.
Delimit Scope res_scope with res.
Notation "x <- m ;; k" := (res_bind m (fun x => k))
  (at level 61, m at next level, right associativity) : res_scope.
Local Open Scope res_scope.

Module Py.

Fixpoint assoc {A} (k : string) (d : list (string * A)) : option A :=
  match d with
  | [] => None
  | (k', v) :: d' => if String.eqb k k' then Some v else assoc k d'
  end.

(** [obj[key]] for a string key.  Only a dict can be indexed by a string;
    a list or a str wants an integer, the rest is not subscriptable. *)
Definition getitem (obj : pyval) (key : string) : res pyval :=
  match obj with
  | PyDict d =>
      match assoc key d with
      | Some v => Return v
      | None => Raise (KeyError key)
      end
  | _ => Raise TypeError
  end.

(** [a == b].  [bool] is a subclass of [int], so [True == 1]; dicts
    compare without regard to order. *)
Fixpoint eq (a b : pyval) {struct a} : bool :=
  match a, b with
  | PyNone, PyNone => true
  | PyBool x, PyBool y => Bool.eqb x y
  | PyBool x, PyInt y => Z.eqb (Z.b2z x) y
  | PyInt x, PyBool y => Z.eqb x (Z.b2z y)
  | PyInt x, PyInt y => Z.eqb x y
  | PyStr x, PyStr y => String.eqb x y
  | PyList xs, PyList ys =>
      (fix go (xs ys : list pyval) {struct xs} : bool :=
         match xs, ys with
         | [], [] => true
         | x :: xs', y :: ys' => eq x y && go xs' ys'
         | _, _ => false
         end) xs ys
  | PyDict d, PyDict e =>
      Nat.eqb (List.length d) (List.length e) &&
      (fix go (d : list (string * pyval)) : bool :=
         match d with
         | [] => true
         | (k, v) :: d' =>
             match assoc k e with
             | Some w => eq v w
             | None => false
             end && go d'
         end) d
  | _, _ => false
  end.

(** Truth value of an object, as [if x:] tests it. *)
Definition truthy (v : pyval) : bool :=
  match v with
  | PyNone => false
  | PyBool b => b
  | PyInt z => negb (Z.eqb z 0)
  | PyStr s => negb (String.eqb s EmptyString)
  | PyList l => match l with [] => false | _ => true end
  | PyDict d => match d with [] => false | _ => true end
  end.

(** [x is not ''].  The source only evaluates it on a truthy [x], which
    is never an empty string. *)
Definition is_not_empty_str (v : pyval) : bool :=
  match v with
  | PyStr s => negb (String.eqb s EmptyString)
  | _ => true
  end.

(** [''.join(xs)]: every item must be a str. *)
Fixpoint join (xs : list pyval) : res string :=
  match xs with
  | [] => Return EmptyString
  | PyStr s :: xs' => r <- join xs' ;; Return (s ++ r)
  | _ :: _ => Raise TypeError
  end.

(** *** [repr] and [str], for [str.format] *)

Definition hex_digit (n : N) : ascii :=
  ascii_of_N (if N.ltb n 10 then 48 + n else 87 + n).

Fixpoint contains (c : ascii) (s : string) : bool :=
  match s with
  | EmptyString => false
  | String c' s' => Ascii.eqb c c' || contains c s'
  end.

Definition squote : ascii := "'"%char.
Definition dquote : ascii := ascii_of_N 34.
Definition backslash : ascii := ascii_of_N 92.

Definition str1 (c : ascii) : string := String c EmptyString.

(** One character of [repr] of a str quoted with [q].  Below code point
    256 the characters that are not printable, and so written as a hex
    escape, are the controls 0 to 31 and 127 to 159, the no-break space
    160 and the soft hyphen 173. *)
Definition repr_char (q c : ascii) : string :=
  let n := N_of_ascii c in
  if Ascii.eqb c q || Ascii.eqb c backslash then String backslash (str1 c)
  else if N.eqb n 9 then String backslash "t"
  else if N.eqb n 10 then String backslash "n"
  else if N.eqb n 13 then String backslash "r"
  else if N.ltb n 32 || (N.leb 127 n && N.leb n 160) || N.eqb n 173 then
    String backslash (String "x"%char
      (String (hex_digit (N.div n 16)) (str1 (hex_digit (N.modulo n 16)))))
  else str1 c.

Fixpoint repr_chars (q : ascii) (s : string) : string :=
  match s with
  | EmptyString => EmptyString
  | String c s' => (repr_char q c ++ repr_chars q s')%string
  end.

Definition repr_str (s : string) : string :=
  let q := if contains squote s && negb (contains dquote s)
           then dquote else squote in
  (str1 q ++ repr_chars q s ++ str1 q)%string.

Definition repr_int (z : Z) : string :=
  NilZero.string_of_int (Z.to_int z).

Fixpoint repr (v : pyval) : string :=
  match v with
  | PyNone => "None"
  | PyBool true => "True"
  | PyBool false => "False"
  | PyInt z => repr_int z
  | PyStr s => repr_str s
  | PyList l =>
      ("[" ++
       (fix items (l : list pyval) : string :=
          match l with
          | [] => EmptyString
          | [x] => repr x
          | x :: l' => repr x ++ ", " ++ items l'
          end) l ++ "]")%string
  | PyDict d =>
      ("{" ++
       (fix items (d : list (string * pyval)) : string :=
          match d with
          | [] => EmptyString
          | [(k, x)] => repr_str k ++ ": " ++ repr x
          | (k, x) :: d' => repr_str k ++ ": " ++ repr x ++ ", " ++ items d'
          end) d ++ "}")%string
  end.

(** [str(v)], which is also what an empty format field [{}] inserts. *)
Definition str (v : pyval) : string :=
  match v with
  | PyStr s => s
  | _ => repr v
  end.

End Py.

(** ** The handler object *)

(** The dict handed to [Future.set_result] when the kernel reports idle. *)
Record py_result : Type := mk_result {
  status : Z;
  content : pyval
}.

(** [tornado.concurrent.Future]: pending, or resolved with a result.
    [set_result] resolves a pending future and raises on one that is
    resolved already, leaving its result as it was. *)
Record Future : Type := mk_future {
  future_result : option py_result
}.

Definition new_future : Future := mk_future None.

Definition set_result (f : Future) (r : py_result) : res Future :=
  match future_result f with
  | None => Return (mk_future (Some r))
  | Some _ => Raise InvalidStateError
  end.

(** The attributes [on_recv] and [_handle_request] touch.

    [execute_result], [stream_messages] and [error_message] are declared at
    class level.  For the two that default to [None], reading the class
    default and reading an instance attribute holding [None] cannot be told
    apart, so one field stands for both.  [stream_messages] defaults to a
    list object shared by every instance: [cls_stream_messages] is that
    list, and [stream_messages] is the instance attribute, absent until
    [_handle_request] assigns it.  [parent_header] and [execution_future]
    have no class default.  [response_future] is assigned on line 75 and
    read by neither method, so it has no field. *)
Record handler : Type := mk_handler {
  cls_stream_messages : list pyval;
  execute_result : pyval;
  stream_messages : option (list pyval);
  error_message : pyval;
  parent_header : option pyval;
  execution_future : option Future
}.

Definition set_execute_result (v : pyval) (h : handler) : handler :=
  mk_handler (cls_stream_messages h) v (stream_messages h)
             (error_message h) (parent_header h) (execution_future h).

Definition set_stream_messages (l : list pyval) (h : handler) : handler :=
  mk_handler (cls_stream_messages h) (execute_result h) (Some l)
             (error_message h) (parent_header h) (execution_future h).

Definition set_cls_stream_messages (l : list pyval) (h : handler) : handler :=
  mk_handler l (execute_result h) (stream_messages h)
             (error_message h) (parent_header h) (execution_future h).

Definition set_error_message (v : pyval) (h : handler) : handler :=
  mk_handler (cls_stream_messages h) (execute_result h) (stream_messages h)
             v (parent_header h) (execution_future h).

Definition set_parent_header (v : pyval) (h : handler) : handler :=
  mk_handler (cls_stream_messages h) (execute_result h) (stream_messages h)
             (error_message h) (Some v) (execution_future h).

Definition set_execution_future (f : Future) (h : handler) : handler :=
  mk_handler (cls_stream_messages h) (execute_result h) (stream_messages h)
             (error_message h) (parent_header h) (Some f).

(** Attribute reads.  [self.stream_messages] finds the instance attribute
    first and the class attribute otherwise. *)
Definition get_stream_messages (self : handler) : list pyval :=
  match stream_messages self with
  | Some l => l
  | None => cls_stream_messages self
  end.

Definition get_parent_header (self : handler) : res pyval :=
  match parent_header self with
  | Some v => Return v
  | None => Raise (AttributeError "parent_header")
  end.

Definition get_execution_future (self : handler) : res Future :=
  match execution_future self with
  | Some f => Return f
  | None => Raise (AttributeError "execution_future")
  end.

(** [self.stream_messages.append(x)] mutates the list object the read
    found: the instance's own list, or the shared class-level one. *)
Definition append_stream_message (x : pyval) (self : handler) : handler :=
  match stream_messages self with
  | Some l => set_stream_messages (l ++ [x]) self
  | None => set_cls_stream_messages (cls_stream_messages self ++ [x]) self
  end.

(** ** [on_recv] *)

(** ['Error {}: {} \n'.format(ename, evalue)] *)
Definition format_error (ename evalue : pyval) : string :=
  "Error " ++ Py.str ename ++ ": " ++ Py.str evalue ++ " " ++
  String (ascii_of_N 10) EmptyString.

(** Lines 39 to 46: the result built on idle from the three fields. *)
Definition idle_result (self : handler) : res py_result :=
  if Py.truthy (error_message self) then
    Return (mk_result 500 (error_message self))
  else if Py.truthy (execute_result self)
          && Py.is_not_empty_str (execute_result self) then
    Return (mk_result 200 (error_message self))
  else
    body <- Py.join (get_stream_messages self) ;;
    Return (mk_result 200 (PyStr body)).

(** [msg['header']['msg_type'] == 'status' and
     msg['content']['execution_state'] == 'idle']: the content is only
    looked at for a status message. *)
Definition is_idle_status (msg msg_type : pyval) : res bool :=
  if Py.eq msg_type (PyStr "status") then
    c <- Py.getitem msg "content" ;;
    st <- Py.getitem c "execution_state" ;;
    Return (Py.eq st (PyStr "idle"))
  else Return false.

(** The [elif] chain reads [msg['header']['msg_type']] again at each test;
    the message does not change, so the value read for the first test is
    used for all of them. *)
Definition on_recv (self : handler) (msg : pyval) : res handler :=
  ph <- Py.getitem msg "parent_header" ;;
  msg_id <- Py.getitem ph "msg_id" ;;
  key <- get_parent_header self ;;
  if Py.eq msg_id key then
    hd <- Py.getitem msg "header" ;;
    msg_type <- Py.getitem hd "msg_type" ;;
    idle <- is_idle_status msg msg_type ;;
    if idle then
      result <- idle_result self ;;
      fut <- get_execution_future self ;;
      fut' <- set_result fut result ;;
      Return (set_execution_future fut' self)
    else if Py.eq msg_type (PyStr "execute_result") then
      c <- Py.getitem msg "content" ;;
      data <- Py.getitem c "data" ;;
      Return (set_execute_result data self)
    else if Py.eq msg_type (PyStr "stream") then
      c <- Py.getitem msg "content" ;;
      text <- Py.getitem c "text" ;;
      Return (append_stream_message text self)
    else if Py.eq msg_type (PyStr "error") then
      c <- Py.getitem msg "content" ;;
      ename <- Py.getitem c "ename" ;;
      evalue <- Py.getitem c "evalue" ;;
      Return (set_error_message (PyStr (format_error ename evalue)) self)
    else Return self
  else Return self.

(** The listener applied to a run of messages, stopping at the first
    exception. *)
Fixpoint on_recv_all (self : handler) (msgs : list pyval) : res handler :=
  match msgs with
  | [] => Return self
  | m :: ms => self' <- on_recv self m ;; on_recv_all self' ms
  end.

(** ** [_handle_request] *)

(** Calls on collaborators outside this file: the kernel pool, the kernel
    client and the tornado response methods, in the order they are made.
    [acquire] yields a client and a kernel id; the client is the one both
    [execute] calls go to, so only the id is kept. *)
Inductive call : Type :=
| Acquire
| Listen (kernel_id : pyval)
| Execute (code : string)
| Release (kernel_id : pyval)
| SetHeader (name value : string)
| SetStatus (code : Z)
| Write (chunk : pyval)
| Finish.

(** A coroutine either returns, raises, or stays suspended at a [yield]
    that is never resumed. *)
Inductive outcome (A : Type) : Type :=
| Done (a : A)
| Raised (e : exn)
| Suspended.
Arguments Done {A} a.
Arguments Raised {A} e.
Arguments Suspended {A}.

(** What one request meets.  [request_code] is the outcome of lines 85 to
    95 (request_utils and json are not part of this file): the code string
    built from the request, or the exception raised while building it.
    [oracle] answers every outside call from the calls made so far.
    [inbox] holds the messages the pool hands to the listener while the
    coroutine waits on [execution_future]; [wait_raises] is an exception
    thrown into that wait when no message resolved it. *)
Record env : Type := mk_env {
  request_method : string;
  sources : list (string * string);
  request_code : res string;
  oracle : list call -> call -> outcome pyval;
  inbox : list pyval;
  wait_raises : option exn
}.

Definition world : Type := handler * list call.

Definition coro (A : Type) : Type := world -> outcome A * world.

Definition ret {A} (a : A) : coro A := fun w => (Done a, w).

Definition bind {A B} (m : coro A) (k : A -> coro B) : coro B :=
  fun w =>
    match m w with
    | (Done a, w') => k a w'
    | (Raised e, w') => (Raised e, w')
    | (Suspended, w') => (Suspended, w')
    end.

Declare Scope coro_scope.
Delimit Scope coro_scope with coro.
Notation "x <- m ;; k" := (bind m (fun x => k))
  (at level 61, m at next level, right associativity) : coro_scope.
Notation "m ;; k" := (bind m (fun _ => k))
  (at level 61, right associativity) : coro_scope.

(** [try: body finally: cleanup].  The cleanup runs when the body returns
    or raises, and an exception of its own replaces the body's.  A body
    that is never resumed never reaches it. *)
Definition try_finally {A} (body : coro A) (cleanup : coro unit) : coro A :=
  fun w =>
    match body w with
    | (Done a, w') =>
        match cleanup w' with
        | (Done _, w'') => (Done a, w'')
        | (Raised e, w'') => (Raised e, w'')
        | (Suspended, w'') => (Suspended, w'')
        end
    | (Raised e, w') =>
        match cleanup w' with
        | (Done _, w'') => (Raised e, w'')
        | (Raised e', w'') => (Raised e', w'')
        | (Suspended, w'') => (Suspended, w'')
        end
    | (Suspended, w') => (Suspended, w')
    end.

Definition modify (f : handler -> handler) : coro unit :=
  fun w => (Done tt, (f (fst w), snd w)).

Definition lift {A} (r : res A) : coro A :=
  fun w =>
    match r with
    | Return a => (Done a, w)
    | Raise e => (Raised e, w)
    end.

Section Request.

Variable E : env.

(** An outside call is recorded, then answered by the environment. *)
Definition perform (c : call) : coro pyval :=
  fun w => (oracle E (snd w) c, (fst w, (snd w ++ [c])%list)).

(** The result the future is resolved with, if it is. *)
Definition resolved (self : handler) : option py_result :=
  match execution_future self with
  | Some f => future_result f
  | None => None
  end.

(** The listener at work while the coroutine is suspended: messages are
    handed to [on_recv] one at a time until the future is resolved.  An
    exception of [on_recv] surfaces in the caller of the callback, not in
    the coroutine, and [on_recv] assigns nothing before it raises, so the
    handler is as it was. *)
Fixpoint deliver (self : handler) (msgs : list pyval)
  : handler * option py_result :=
  match msgs with
  | [] => (self, None)
  | m :: ms =>
      let self' := match on_recv self m with
                   | Return s => s
                   | Raise _ => self
                   end in
      match resolved self' with
      | Some r => (self', Some r)
      | None => deliver self' ms
      end
  end.

(** [result = yield self.execution_future] *)
Definition wait_execution_future : coro py_result :=
  fun w =>
    match deliver (fst w) (inbox E) with
    | (self', Some r) => (Done r, (self', snd w))
    | (self', None) =>
        match wait_raises E with
        | Some e => (Raised e, (self', snd w))
        | None => (Suspended, (self', snd w))
        end
    end.

Local Open Scope coro_scope.

Definition _handle_request : coro unit :=
  modify (set_execute_result PyNone) ;;
  modify (set_stream_messages []) ;;
  modify (set_error_message PyNone) ;;
  match Py.assoc (request_method E) (sources E) with
  | None =>
      perform (SetStatus 405) ;;
      perform Finish ;;
      ret tt
  | Some source_code =>
      modify (set_execution_future new_future) ;;
      kernel_id <- perform Acquire ;;
      try_finally
        (perform (Listen kernel_id) ;;
         request_code <- lift (request_code E) ;;
         perform (Execute request_code) ;;
         msg_id <- perform (Execute source_code) ;;
         modify (set_parent_header msg_id) ;;
         result <- wait_execution_future ;;
         perform (SetHeader "Content-Type" "text/plain") ;;
         perform (SetStatus (status result)) ;;
         perform (Write (content result)) ;;
         ret tt)
        (perform (Release kernel_id) ;;
         perform Finish ;;
         ret tt)
  end.

End Request.

(** Pool interactions among the calls made. *)
Definition is_release (c : call) : bool :=
  match c with Release _ => true | _ => false end.

Definition is_acquire (c : call) : bool :=
  match c with Acquire => true | _ => false end.

Definition is_pool_call (c : call) : bool :=
  match c with
  | Acquire | Listen _ | Execute _ | Release _ => true
  | _ => false
  end.

(** ** Reading a message the way [on_recv] does

    The theorems below speak of "a stream message for this key" and the
    like.  These functions give those words a meaning by following the
    lookups and tests of [on_recv] in the order it makes them. *)

(** [msg['parent_header']['msg_id']] *)
Definition correlation_key (msg : pyval) : res pyval :=
  ph <- Py.getitem msg "parent_header" ;;
  Py.getitem ph "msg_id".

(** The branch of the [if]/[elif] chain a message takes, with the content
    fields that branch reads. *)
Inductive kind : Type :=
| KIdle
| KExecuteResult (data : pyval)
| KStream (text : pyval)
| KError (ename evalue : pyval)
| KOther.

Definition classify (msg : pyval) : res kind :=
  hd <- Py.getitem msg "header" ;;
  msg_type <- Py.getitem hd "msg_type" ;;
  idle <- is_idle_status msg msg_type ;;
  if idle then Return KIdle
  else if Py.eq msg_type (PyStr "execute_result") then
    c <- Py.getitem msg "content" ;;
    data <- Py.getitem c "data" ;;
    Return (KExecuteResult data)
  else if Py.eq msg_type (PyStr "stream") then
    c <- Py.getitem msg "content" ;;
    text <- Py.getitem c "text" ;;
    Return (KStream text)
  else if Py.eq msg_type (PyStr "error") then
    c <- Py.getitem msg "content" ;;
    ename <- Py.getitem c "ename" ;;
    evalue <- Py.getitem c "evalue" ;;
    Return (KError ename evalue)
  else Return KOther.

(** What each branch does to the handler. *)
Definition apply_kind (k : kind) (self : handler) : res handler :=
  match k with
  | KIdle =>
      result <- idle_result self ;;
      fut <- get_execution_future self ;;
      fut' <- set_result fut result ;;
      Return (set_execution_future fut' self)
  | KExecuteResult data => Return (set_execute_result data self)
  | KStream text => Return (append_stream_message text self)
  | KError ename evalue =>
      Return (set_error_message (PyStr (format_error ename evalue)) self)
  | KOther => Return self
  end.

(** [Some k] when the message carries a correlation key equal to [key] and
    takes branch [k]; [None] when its key differs or a lookup fails. *)
Definition kind_for (key msg : pyval) : option kind :=
  match correlation_key msg with
  | Return msg_id =>
      if Py.eq msg_id key then
        match classify msg with
        | Return k => Some k
        | Raise _ => None
        end
      else None
  | Raise _ => None
  end.

Definition is_error_kind (k : option kind) : bool :=
  match k with Some (KError _ _) => true | _ => false end.

Definition is_idle_kind (k : option kind) : bool :=
  match k with Some KIdle => true | _ => false end.

Definition is_str (v : pyval) : bool :=
  match v with PyStr _ => true | _ => false end.

(** A message that has every field [on_recv] may read from it, with a text
    chunk that is a str when it is a stream message. *)
Definition well_formed (msg : pyval) : bool :=
  match correlation_key msg, classify msg with
  | Return _, Return (KStream text) => is_str text
  | Return _, Return _ => true
  | _, _ => false
  end.

(** A handler in the middle of a request: the key and the future are
    assigned and every chunk collected so far is a str. *)
Definition ready (self : handler) : Prop :=
  parent_header self <> None /\
  execution_future self <> None /\
  forallb is_str (get_stream_messages self) = true.

(** The results the handler's future has been resolved with: none while
    it is pending or absent, one afterwards. *)
Definition results (self : handler) : list py_result :=
  match execution_future self with
  | Some f =>
      match future_result f with
      | Some r => [r]
      | None => []
      end
  | None => []
  end.

Definition newline : string := String (ascii_of_N 10) EmptyString.

(** A message as the kernel sends it, for the examples. *)
Definition message (key : pyval) (msg_type : string)
    (content : list (string * pyval)) : pyval :=
  PyDict [("parent_header", PyDict [("msg_id", key)]);
          ("header", PyDict [("msg_type", PyStr msg_type)]);
          ("content", PyDict content)].

Definition idle_message (key : pyval) : pyval :=
  message key "status" [("execution_state", PyStr "idle")].

Definition stream_message (key : pyval) (text : string) : pyval :=
  message key "stream" [("name", PyStr "stdout"); ("text", PyStr text)].

Definition error_message_of (key : pyval) (ename evalue : string) : pyval :=
  message key "error" [("ename", PyStr ename); ("evalue", PyStr evalue)].

Definition execute_result_message (key data : pyval) : pyval :=
  message key "execute_result" [("data", data)].

(** The handler as [_handle_request] has it when it starts to wait, for a
    submission the kernel answered with [key]. *)
Definition waiting (key : pyval) : handler :=
  mk_handler [] PyNone (Some []) PyNone (Some key) (Some new_future).

(** ** Vocabulary for the request coroutine *)

(** [only P m]: whatever [m] does, the calls it adds all satisfy [P]. *)
Definition only (P : call -> bool) {A} (m : coro A) : Prop :=
  forall w o w',
    m w = (o, w') ->
    exists l, snd w' = (snd w ++ l)%list /\ forallb P l = true.

(** A call that is neither [acquire] nor [release]. *)
Definition keeps_lease (c : call) : bool :=
  negb (is_acquire c) && negb (is_release c).

(** Two handlers that differ at most in the class-level list. *)
Definition agree (a b : handler) : Prop :=
  execute_result a = execute_result b /\
  stream_messages a = stream_messages b /\
  error_message a = error_message b /\
  parent_header a = parent_header b /\
  execution_future a = execution_future b.

(** The three fields [_handle_request] assigns first. *)
Definition aggregation (h : handler) : pyval * option (list pyval) * pyval :=
  (execute_result h, stream_messages h, error_message h).

(** The environment lets the request get as far as the wait, and [key] is
    what the second submission returned: the method is configured, the
    pool handed out a kernel, the listener was registered, the request
    code was built and both submissions returned. *)
Definition waits_on (E : env) (key : pyval) : Prop :=
  exists (source_code code : string) (kernel_id listening submitted : pyval),
    Py.assoc (request_method E) (sources E) = Some source_code /\
    oracle E [] Acquire = Done kernel_id /\
    oracle E [Acquire] (Listen kernel_id) = Done listening /\
    request_code E = Return code /\
    oracle E [Acquire; Listen kernel_id] (Execute code) = Done submitted /\
    oracle E [Acquire; Listen kernel_id; Execute code] (Execute source_code)
      = Done key.

(** An environment for the examples: one configured method, a pool that
    hands out [kernel-1], a kernel that answers every submission with the
    id [k], and collaborators that never raise. *)
Definition example_oracle (made : list call) (c : call) : outcome pyval :=
  match c with
  | Acquire => Done (PyStr "kernel-1")
  | Execute _ => Done (PyStr "k")
  | _ => Done PyNone
  end.

Definition example_env (method : string) (code : res string)
    (msgs : list pyval) : env :=
  mk_env method [("GET", "print(1+1)")] code example_oracle msgs None.

(** A handler object before its first request: only the class defaults. *)
Definition new_handler : handler :=
  mk_handler [] PyNone None PyNone None None.

(** ** Vocabulary for runs of messages *)

(** The message carries a correlation key, equal to [key] or not. *)
Definition has_key (msg : pyval) : bool :=
  match correlation_key msg with
  | Return _ => true
  | Raise _ => false
  end.

Definition bears_key (key msg : pyval) : bool :=
  match correlation_key msg with
  | Return msg_id => Py.eq msg_id key
  | Raise _ => false
  end.

(** The chunks of the stream messages for [key], in arrival order. *)
Definition stream_texts (key : pyval) (msgs : list pyval) : list pyval :=
  flat_map (fun m => match kind_for key m with
                     | Some (KStream text) => [text]
                     | _ => []
                     end) msgs.

(** The data of the last [execute_result] message for [key], or [init]
    when there is none. *)
Definition last_data (key : pyval) (msgs : list pyval) (init : pyval)
  : pyval :=
  fold_left (fun acc m => match kind_for key m with
                          | Some (KExecuteResult data) => data
                          | _ => acc
                          end) msgs init.

(** How many of the messages are an idle status for [key]. *)
Definition count_idle (key : pyval) (msgs : list pyval) : nat :=
  List.length (filter (fun m => is_idle_kind (kind_for key m)) msgs).

(** * Properties *)

(** ** The listener, branch by branch *)

(** [on_recv] is: read the key, compare, classify, act. *)
Lemma on_recv_unfold (self : handler) (msg : pyval) :
  on_recv self msg =
  (msg_id <- correlation_key msg ;;
   key <- get_parent_header self ;;
   if Py.eq msg_id key then k <- classify msg ;; apply_kind k self
   else Return self).
Proof.
  unfold on_recv, correlation_key, classify.
  destruct (Py.getitem msg "parent_header") as [ph|]; cbn [res_bind]; auto.
  destruct (Py.getitem ph "msg_id") as [mid|]; cbn [res_bind]; auto.
  destruct (get_parent_header self) as [key|]; cbn [res_bind]; auto.
  destruct (Py.eq mid key); auto.
  destruct (Py.getitem msg "header") as [hd|]; cbn [res_bind]; auto.
  destruct (Py.getitem hd "msg_type") as [ty|]; cbn [res_bind]; auto.
  destruct (is_idle_status msg ty) as [[|]|]; cbn [res_bind]; auto.
  destruct (Py.eq ty (PyStr "execute_result")).
  { destruct (Py.getitem msg "content") as [c|]; cbn [res_bind]; auto.
    destruct (Py.getitem c "data"); cbn [res_bind]; auto. }
  destruct (Py.eq ty (PyStr "stream")).
  { destruct (Py.getitem msg "content") as [c|]; cbn [res_bind]; auto.
    destruct (Py.getitem c "text"); cbn [res_bind]; auto. }
  destruct (Py.eq ty (PyStr "error")); auto.
  destruct (Py.getitem msg "content") as [c|]; cbn [res_bind]; auto.
  destruct (Py.getitem c "ename"); cbn [res_bind]; auto.
  destruct (Py.getitem c "evalue"); cbn [res_bind]; auto.
Qed.

(** A message for the handler's key takes its branch. *)
Lemma on_recv_kind (self : handler) (key msg : pyval) (k : kind) :
  parent_header self = Some key ->
  kind_for key msg = Some k ->
  on_recv self msg = apply_kind k self.
Proof.
  intros Hkey Hk. rewrite on_recv_unfold.
  unfold kind_for in Hk. unfold get_parent_header. rewrite Hkey.
  destruct (correlation_key msg) as [mid|]; [|discriminate].
  cbn [res_bind]. destruct (Py.eq mid key); [|discriminate].
  destruct (classify msg); [|discriminate].
  injection Hk as ->. reflexivity.
Qed.

(** A message [on_recv] returns from either took a branch or was for
    another key. *)
Lemma on_recv_returns (self self' : handler) (key msg : pyval) :
  parent_header self = Some key ->
  on_recv self msg = Return self' ->
  match kind_for key msg with
  | Some k => apply_kind k self = Return self'
  | None => self' = self
  end.
Proof.
  intros Hkey. rewrite on_recv_unfold. unfold kind_for, get_parent_header.
  rewrite Hkey.
  destruct (correlation_key msg) as [mid|]; cbn [res_bind]; [|discriminate].
  destruct (Py.eq mid key).
  - destruct (classify msg); cbn [res_bind]; [auto|discriminate].
  - intros H. injection H as <-. reflexivity.
Qed.

(** The test on line 36 is the only thing done to a message for another
    key. *)
Lemma on_recv_other_key (self : handler) (key msg msg_id : pyval) :
  parent_header self = Some key ->
  correlation_key msg = Return msg_id ->
  Py.eq msg_id key = false ->
  on_recv self msg = Return self.
Proof.
  intros Hkey Hid Hne. rewrite on_recv_unfold, Hid. cbn [res_bind].
  unfold get_parent_header. rewrite Hkey. cbn [res_bind].
  now rewrite Hne.
Qed.

Lemma apply_kind_parent_header (k : kind) (self self' : handler) :
  apply_kind k self = Return self' ->
  parent_header self' = parent_header self.
Proof.
  destruct k; cbn [apply_kind]; intros H.
  - destruct (idle_result self); cbn [res_bind] in H; [|discriminate].
    destruct (get_execution_future self) as [f|]; cbn [res_bind] in H;
      [|discriminate].
    destruct (set_result f _); cbn [res_bind] in H; [|discriminate].
    injection H as <-. reflexivity.
  - injection H as <-. reflexivity.
  - injection H as <-. unfold append_stream_message.
    destruct (stream_messages self); reflexivity.
  - injection H as <-. reflexivity.
  - injection H as <-. reflexivity.
Qed.

Lemma on_recv_parent_header (self self' : handler) (msg : pyval) :
  on_recv self msg = Return self' ->
  parent_header self' = parent_header self.
Proof.
  intros H. destruct (parent_header self) as [key|] eqn:Hkey.
  - pose proof (on_recv_returns _ _ _ _ Hkey H) as R.
    destruct (kind_for key msg).
    + rewrite (apply_kind_parent_header _ _ _ R). exact Hkey.
    + subst. exact Hkey.
  - rewrite on_recv_unfold in H. unfold get_parent_header in H.
    rewrite Hkey in H.
    destruct (correlation_key msg); cbn [res_bind] in H; discriminate.
Qed.

Lemma on_recv_all_app (self : handler) (xs ys : list pyval) :
  on_recv_all self (xs ++ ys) =
  (self' <- on_recv_all self xs ;; on_recv_all self' ys).
Proof.
  revert self. induction xs as [|x xs IH]; intros self; cbn; auto.
  destruct (on_recv self x); cbn [res_bind]; auto.
Qed.

Lemma on_recv_all_parent_header (msgs : list pyval) (self self' : handler) :
  on_recv_all self msgs = Return self' ->
  parent_header self' = parent_header self.
Proof.
  revert self. induction msgs as [|m ms IH]; intros self H; cbn in H.
  - injection H as <-. reflexivity.
  - destruct (on_recv self m) as [s|] eqn:E; cbn [res_bind] in H;
      [|discriminate].
    rewrite (IH _ H). eapply on_recv_parent_header; eauto.
Qed.

Lemma format_error_str (ename evalue : string) :
  format_error (PyStr ename) (PyStr evalue) =
  "Error " ++ ename ++ ": " ++ evalue ++ " " ++ newline.
Proof. reflexivity. Qed.

Lemma append_empty (s : string) : (s ++ EmptyString)%string = s.
Proof. induction s as [|c s IH]; cbn; [|rewrite IH]; reflexivity. Qed.

Lemma join_strs (texts : list string) :
  Py.join (map PyStr texts) = Return (String.concat EmptyString texts).
Proof.
  induction texts as [|t ts IH]; cbn [map Py.join]; auto.
  rewrite IH. cbn [res_bind].
  destruct ts as [|t' ts]; cbn [String.concat].
  - now rewrite append_empty.
  - reflexivity.
Qed.

Lemma join_returns (xs : list pyval) :
  forallb is_str xs = true -> exists s, Py.join xs = Return s.
Proof.
  induction xs as [|x xs IH]; cbn [forallb Py.join]; intros H.
  - eauto.
  - apply andb_true_iff in H as [Hx Hxs].
    destruct x; try discriminate.
    destruct (IH Hxs) as [r ->]. cbn [res_bind]. eauto.
Qed.

(** Only the error branch assigns [error_message]. *)
Lemma apply_kind_error_message (k : kind) (self self' : handler) :
  apply_kind k self = Return self' ->
  is_error_kind (Some k) = false ->
  error_message self' = error_message self.
Proof.
  destruct k; cbn [apply_kind is_error_kind]; intros H Hk;
    try discriminate.
  - destruct (idle_result self); cbn [res_bind] in H; [|discriminate].
    destruct (get_execution_future self) as [f|]; cbn [res_bind] in H;
      [|discriminate].
    destruct (set_result f _); cbn [res_bind] in H; [|discriminate].
    injection H as <-. reflexivity.
  - injection H as <-. reflexivity.
  - injection H as <-. unfold append_stream_message.
    destruct (stream_messages self); reflexivity.
  - injection H as <-. reflexivity.
Qed.

Lemma on_recv_all_error_message (key : pyval) (msgs : list pyval)
    (self self' : handler) :
  parent_header self = Some key ->
  forallb (fun m => negb (is_error_kind (kind_for key m))) msgs = true ->
  on_recv_all self msgs = Return self' ->
  error_message self' = error_message self.
Proof.
  revert self. induction msgs as [|m ms IH]; intros self Hkey Hno H;
    cbn [on_recv_all forallb] in *.
  - injection H as <-. reflexivity.
  - apply andb_true_iff in Hno as [Hm Hms].
    destruct (on_recv self m) as [s|] eqn:E; cbn [res_bind] in H;
      [|discriminate].
    assert (Hs : parent_header s = Some key).
    { rewrite (on_recv_parent_header _ _ _ E). exact Hkey. }
    rewrite (IH s Hs Hms H).
    pose proof (on_recv_returns _ _ _ _ Hkey E) as R.
    destruct (kind_for key m) as [k|].
    + apply (apply_kind_error_message k); auto.
      now apply negb_true_iff in Hm.
    + now subst.
Qed.

(** With a truthy [error_message] the result is the 500 one. *)
Lemma idle_result_error (self : handler) :
  Py.truthy (error_message self) = true ->
  idle_result self = Return (mk_result 500 (error_message self)).
Proof. unfold idle_result. intros ->. reflexivity. Qed.

(** With no error and a truthy [execute_result], the body is again
    [error_message]. *)
Lemma idle_result_execute_result (self : handler) :
  Py.truthy (error_message self) = false ->
  Py.truthy (execute_result self) = true ->
  idle_result self = Return (mk_result 200 (error_message self)).
Proof.
  unfold idle_result. intros -> Ht. rewrite Ht.
  destruct (execute_result self) as [| | |s| |]; cbn in *; try reflexivity.
  now rewrite Ht.
Qed.

(** With neither, the body is the joined stream. *)
Lemma idle_result_stream (self : handler) :
  Py.truthy (error_message self) = false ->
  Py.truthy (execute_result self) = false ->
  idle_result self =
  (body <- Py.join (get_stream_messages self) ;;
   Return (mk_result 200 (PyStr body))).
Proof. unfold idle_result. intros -> ->. reflexivity. Qed.

(** Stream messages for the key, applied to a handler that has its own
    list, extend that list in arrival order and touch nothing else. *)
Lemma on_recv_all_streams (key : pyval) (msgs : list pyval)
    (texts : list string) (self : handler) (l : list pyval) :
  parent_header self = Some key ->
  stream_messages self = Some l ->
  Forall2 (fun m t => kind_for key m = Some (KStream (PyStr t))) msgs texts ->
  on_recv_all self msgs =
  Return (set_stream_messages (l ++ map PyStr texts) self).
Proof.
  intros Hkey Hl F. revert self l Hkey Hl.
  induction F as [|m t ms ts Hm F IH]; intros self l Hkey Hl;
    cbn [on_recv_all map].
  - rewrite app_nil_r. destruct self; cbn in *. now subst.
  - rewrite (on_recv_kind _ _ _ _ Hkey Hm). cbn [apply_kind res_bind].
    unfold append_stream_message. rewrite Hl.
    rewrite (IH _ (l ++ [PyStr t])%list); [|exact Hkey|reflexivity].
    unfold set_stream_messages. cbn. now rewrite <- app_assoc.
Qed.

(** ** Claims about the listener *)

(** C1, evaluated on the source: an [execute_result] message followed by
    idle, with no error.  The branch taken on a present [execute_result]
    puts [error_message] into the body, so the result handed over is status
    200 with body [None], not the text of the result. *)
Theorem C1_result_branch_body_is_error_message :
  exists self',
    on_recv_all (waiting (PyStr "k"))
      [execute_result_message (PyStr "k") (PyDict [("text/plain", PyStr "2")]);
       idle_message (PyStr "k")] = Return self' /\
    execute_result self' = PyDict [("text/plain", PyStr "2")] /\
    results self' = [mk_result 200 PyNone].
Proof. eexists. split; [reflexivity|]. split; reflexivity. Qed.

(** C3: when [e] is the last error message for the key among the messages
    received, whatever else came before or after it (stream chunks,
    results, earlier idles, messages for other keys), the result computed
    at idle has status 500 and the formatted error as its body, and the
    next idle message hands exactly that result to [set_result] of the
    handler's future. *)
Theorem C3_error_before_idle_gives_500
    (self self' : handler) (key : pyval) (pre post : list pyval)
    (e ename evalue idle : pyval) (fut : Future) :
  parent_header self = Some key ->
  kind_for key e = Some (KError ename evalue) ->
  forallb (fun m => negb (is_error_kind (kind_for key m))) post = true ->
  on_recv_all self (pre ++ e :: post) = Return self' ->
  execution_future self' = Some fut ->
  kind_for key idle = Some KIdle ->
  idle_result self' =
    Return (mk_result 500 (PyStr (format_error ename evalue))) /\
  on_recv self' idle =
    (fut' <- set_result fut
               (mk_result 500 (PyStr (format_error ename evalue))) ;;
     Return (set_execution_future fut' self')).
Proof.
  intros Hkey He Hpost Hrun Hfut Hidle.
  rewrite on_recv_all_app in Hrun.
  destruct (on_recv_all self pre) as [s1|] eqn:E1; cbn [res_bind] in Hrun;
    [|discriminate].
  assert (H1 : parent_header s1 = Some key).
  { rewrite (on_recv_all_parent_header _ _ _ E1). exact Hkey. }
  cbn [on_recv_all] in Hrun.
  rewrite (on_recv_kind _ _ _ _ H1 He) in Hrun.
  cbn [apply_kind res_bind] in Hrun.
  set (s2 := set_error_message (PyStr (format_error ename evalue)) s1) in *.
  assert (H2 : parent_header s2 = Some key) by exact H1.
  pose proof (on_recv_all_error_message _ _ _ _ H2 Hpost Hrun) as Herr.
  cbn in Herr.
  assert (Hres : idle_result self' =
                 Return (mk_result 500 (PyStr (format_error ename evalue)))).
  { rewrite idle_result_error; rewrite Herr; reflexivity. }
  split; [exact Hres|].
  assert (H3 : parent_header self' = Some key).
  { rewrite (on_recv_all_parent_header _ _ _ Hrun). exact H2. }
  rewrite (on_recv_kind _ _ _ _ H3 Hidle). cbn [apply_kind].
  rewrite Hres. cbn [res_bind]. unfold get_execution_future.
  rewrite Hfut. reflexivity.
Qed.

Lemma C3_error_before_idle_gives_500_witness :
  idle_result
    (set_error_message (PyStr (format_error (PyStr "NameError") (PyStr "x")))
       (set_execute_result (PyInt 2)
          (set_stream_messages [PyStr "a"; PyStr "b"] (waiting (PyStr "k")))))
  = Return (mk_result 500 (PyStr ("Error NameError: x " ++ newline))).
Proof.
  refine (proj1 (C3_error_before_idle_gives_500
    (waiting (PyStr "k")) _ (PyStr "k")
    [stream_message (PyStr "k") "a"]
    [stream_message (PyStr "k") "b";
     execute_result_message (PyStr "k") (PyInt 2)]
    (error_message_of (PyStr "k") "NameError" "x")
    (PyStr "NameError") (PyStr "x") (idle_message (PyStr "k")) new_future
    _ _ _ _ _ _)); reflexivity.
Defined.

(** C4: stream messages M1..Mn for the key, then idle, received by a
    handler in the state [_handle_request] leaves it in (no result, no
    error, an empty list of its own): the result handed to [set_result]
    of the handler's future has status 200 and the chunks joined in
    arrival order as its body. *)
Theorem C4_stream_then_idle
    (self : handler) (key : pyval) (fut : Future)
    (msgs : list pyval) (texts : list string) (idle : pyval) :
  parent_header self = Some key ->
  execution_future self = Some fut ->
  execute_result self = PyNone ->
  stream_messages self = Some [] ->
  error_message self = PyNone ->
  Forall2 (fun m t => kind_for key m = Some (KStream (PyStr t))) msgs texts ->
  kind_for key idle = Some KIdle ->
  on_recv_all self (msgs ++ [idle]) =
    (fut' <- set_result fut
               (mk_result 200 (PyStr (String.concat EmptyString texts))) ;;
     Return (set_execution_future fut'
               (set_stream_messages (map PyStr texts) self))).
Proof.
  intros Hkey Hfut Hres Hstr Herr F Hidle.
  rewrite on_recv_all_app.
  rewrite (on_recv_all_streams key msgs texts self [] Hkey Hstr F).
  cbn [res_bind app on_recv_all].
  rewrite (on_recv_kind _ key _ KIdle); [|exact Hkey|exact Hidle].
  cbn [apply_kind]. rewrite idle_result_stream.
  - cbn [get_stream_messages set_stream_messages stream_messages].
    rewrite join_strs. cbn [res_bind]. unfold get_execution_future.
    cbn [execution_future set_stream_messages]. rewrite Hfut.
    cbn [res_bind]. destruct (set_result fut _); reflexivity.
  - cbn. now rewrite Herr.
  - cbn. now rewrite Hres.
Qed.

Lemma C4_stream_then_idle_witness :
  on_recv_all (waiting (PyStr "k"))
    ([stream_message (PyStr "k") "1"; stream_message (PyStr "k") "+1=";
      stream_message (PyStr "k") "2"] ++ [idle_message (PyStr "k")]) =
  (fut' <- set_result new_future
             (mk_result 200
                (PyStr (String.concat EmptyString ["1"; "+1="; "2"]))) ;;
   Return (set_execution_future fut'
             (set_stream_messages (map PyStr ["1"; "+1="; "2"])
                (waiting (PyStr "k"))))).
Proof.
  apply (C4_stream_then_idle (waiting (PyStr "k")) (PyStr "k") new_future);
    try reflexivity.
  repeat constructor.
Defined.

(** C5: a message whose correlation key is not equal to the handler's
    leaves the handler as it was: the three aggregation fields and the
    future alike. *)
Theorem C5_other_key_changes_nothing
    (self : handler) (key msg msg_id : pyval) :
  parent_header self = Some key ->
  correlation_key msg = Return msg_id ->
  Py.eq msg_id key = false ->
  on_recv self msg = Return self.
Proof. exact (on_recv_other_key self key msg msg_id). Qed.

Lemma C5_other_key_changes_nothing_witness :
  on_recv (waiting (PyStr "k")) (idle_message (PyStr "other")) =
  Return (waiting (PyStr "k")).
Proof.
  apply (C5_other_key_changes_nothing _ (PyStr "k") _ (PyStr "other"));
    reflexivity.
Defined.

(** The idle branch resolves a pending future; no other branch touches
    the future. *)
Lemma apply_kind_future (k : kind) (self self' : handler) :
  apply_kind k self = Return self' ->
  match k with
  | KIdle => exists r, idle_result self = Return r /\
                       results self = [] /\ results self' = [r]
  | _ => execution_future self' = execution_future self
  end.
Proof.
  destruct k; cbn [apply_kind]; intros H.
  - destruct (idle_result self) as [r|]; cbn [res_bind] in H;
      [|discriminate].
    unfold get_execution_future in H. unfold results.
    destruct (execution_future self) as [f|]; cbn [res_bind] in H;
      [|discriminate].
    unfold set_result in H.
    destruct (future_result f); cbn [res_bind] in H; [discriminate|].
    injection H as <-. exists r. repeat split; reflexivity.
  - injection H as <-. reflexivity.
  - injection H as <-. unfold append_stream_message.
    destruct (stream_messages self); reflexivity.
  - injection H as <-. reflexivity.
  - injection H as <-. reflexivity.
Qed.

(** A resolved future keeps its result through one message. *)
Lemma on_recv_keeps_result (self self' : handler) (msg : pyval)
    (r : py_result) :
  results self = [r] ->
  on_recv self msg = Return self' ->
  results self' = [r].
Proof.
  intros Hr H. destruct (parent_header self) as [key|] eqn:Hkey.
  - pose proof (on_recv_returns _ _ _ _ Hkey H) as R.
    destruct (kind_for key msg) as [k|]; [|now subst].
    pose proof (apply_kind_future k self self' R) as F.
    destruct k; try (unfold results in *; now rewrite F).
    destruct F as (r' & _ & Hnone & _). congruence.
  - rewrite on_recv_unfold in H. unfold get_parent_header in H.
    rewrite Hkey in H.
    destruct (correlation_key msg); cbn [res_bind] in H; discriminate.
Qed.

(** C6: the result is produced once and for good.  The first idle status
    for the key resolves the pending future with the result computed from
    the fields as they are then.  Once the future is resolved it stays
    resolved with that result: whatever arrives afterwards, a call of
    [on_recv] that returns leaves the result as it was, over one message
    and over any run of them (later chunks, results and errors only reach
    the aggregation fields); and a further idle status for the key does
    not return, since its [set_result] raises on the resolved future, so
    the future is never resolved a second time. *)
Theorem C6_resolution_is_irreversible
    (self : handler) (key msg : pyval) :
  parent_header self = Some key ->
  (forall r,
      results self = [] ->
      execution_future self <> None ->
      kind_for key msg = Some KIdle ->
      idle_result self = Return r ->
      exists self', on_recv self msg = Return self' /\ results self' = [r]) /\
  (forall r,
      results self = [r] ->
      (forall self', on_recv self msg = Return self' -> results self' = [r]) /\
      (forall msgs self',
          on_recv_all self msgs = Return self' -> results self' = [r]) /\
      (kind_for key msg = Some KIdle ->
       exists e, on_recv self msg = Raise e)).
Proof.
  intros Hkey. split.
  - intros r Hnone Hfut Hidle Hr.
    rewrite (on_recv_kind _ _ _ _ Hkey Hidle). cbn [apply_kind].
    rewrite Hr. cbn [res_bind]. unfold results in *.
    unfold get_execution_future, set_result.
    destruct (execution_future self) as [f|]; [|congruence].
    cbn [res_bind]. destruct (future_result f); [discriminate|].
    cbn [res_bind]. eexists. split; reflexivity.
  - intros r Hr. split; [|split].
    + intros self' H. exact (on_recv_keeps_result _ _ _ _ Hr H).
    + intros msgs. revert self Hkey Hr.
      induction msgs as [|m ms IH]; intros self Hkey Hr self' H;
        cbn [on_recv_all] in H.
      * now injection H as <-.
      * destruct (on_recv self m) as [s|] eqn:E; cbn [res_bind] in H;
          [|discriminate].
        apply (IH s); auto.
        -- rewrite (on_recv_parent_header _ _ _ E). exact Hkey.
        -- exact (on_recv_keeps_result _ _ _ _ Hr E).
    + intros Hidle. rewrite (on_recv_kind _ _ _ _ Hkey Hidle).
      cbn [apply_kind].
      destruct (idle_result self) as [r'|e]; cbn [res_bind]; [|eauto].
      unfold results in Hr. unfold get_execution_future.
      destruct (execution_future self) as [f|]; [|discriminate].
      cbn [res_bind]. unfold set_result.
      destruct (future_result f); [|discriminate].
      cbn [res_bind]. eauto.
Qed.

Lemma C6_resolution_is_irreversible_witness :
  on_recv_all (waiting (PyStr "k"))
    [stream_message (PyStr "k") "2"; idle_message (PyStr "k")] =
    Return (set_execution_future
              (mk_future (Some (mk_result 200 (PyStr "2"))))
              (set_stream_messages [PyStr "2"] (waiting (PyStr "k")))) /\
  exists e,
    on_recv (set_execution_future
               (mk_future (Some (mk_result 200 (PyStr "2"))))
               (set_stream_messages [PyStr "2"] (waiting (PyStr "k"))))
      (idle_message (PyStr "k")) = Raise e.
Proof.
  split; [reflexivity|].
  refine (proj2 (proj2 (proj2
    (C6_resolution_is_irreversible
       (set_execution_future
          (mk_future (Some (mk_result 200 (PyStr "2"))))
          (set_stream_messages [PyStr "2"] (waiting (PyStr "k"))))
       (PyStr "k") (idle_message (PyStr "k")) _)
    (mk_result 200 (PyStr "2")) _)) _); reflexivity.
Defined.

(** C7 as stated fails twice over: a second error message for the key
    assigns [error_message] again, and the text ends in a space and a
    newline after the value. *)
Lemma C7_error_message_reassigned :
  exists self1 self2,
    on_recv (waiting (PyStr "k"))
      (error_message_of (PyStr "k") "NameError" "x") = Return self1 /\
    error_message self1 = PyStr ("Error NameError: x " ++ newline) /\
    error_message self1 <> PyStr "Error NameError: x" /\
    on_recv self1 (error_message_of (PyStr "k") "ValueError" "y")
      = Return self2 /\
    error_message self2 = PyStr ("Error ValueError: y " ++ newline) /\
    error_message self2 <> error_message self1.
Proof.
  do 2 eexists. repeat split; try reflexivity; cbn; discriminate.
Qed.

(** C7 as the code has it: every error message for the key assigns
    [error_message], whatever it held before, and the text is ["Error "],
    the name, [": "], the value, a space and a newline. *)
Theorem C7_error_message_last_write
    (self : handler) (key msg : pyval) (ename evalue : string) :
  parent_header self = Some key ->
  kind_for key msg = Some (KError (PyStr ename) (PyStr evalue)) ->
  on_recv self msg =
    Return (set_error_message
              (PyStr ("Error " ++ ename ++ ": " ++ evalue ++ " " ++ newline))
              self).
Proof.
  intros Hkey Hk. rewrite (on_recv_kind _ _ _ _ Hkey Hk). reflexivity.
Qed.

Lemma C7_error_message_last_write_witness :
  on_recv (set_error_message (PyStr "Error NameError: x") (waiting (PyStr "k")))
    (error_message_of (PyStr "k") "ValueError" "y") =
  Return (set_error_message
            (PyStr ("Error " ++ "ValueError" ++ ": " ++ "y" ++ " " ++ newline))
            (set_error_message (PyStr "Error NameError: x")
               (waiting (PyStr "k")))).
Proof.
  apply (C7_error_message_last_write _ (PyStr "k")); reflexivity.
Defined.

(** C8 as stated fails: [on_recv] looks fields up without a guard, so a
    message without [parent_header] raises [KeyError], and so does a
    message for the key that has no [header]. *)
Lemma C8_malformed_message_raises :
  on_recv (waiting (PyStr "k")) (PyDict []) =
    Raise (KeyError "parent_header") /\
  on_recv (waiting (PyStr "k"))
    (PyDict [("parent_header", PyDict [("msg_id", PyStr "k")])]) =
    Raise (KeyError "header") /\
  on_recv (waiting (PyStr "k")) (PyDict [("parent_header", PyNone)]) =
    Raise TypeError.
Proof. repeat split. Qed.

Lemma ready_append (x : pyval) (self : handler) :
  is_str x = true -> ready self -> ready (append_stream_message x self).
Proof.
  intros Hx (Hk & Hf & Hs). unfold append_stream_message, ready in *.
  unfold get_stream_messages in *.
  destruct (stream_messages self) as [l|] eqn:El;
    cbn [set_stream_messages set_cls_stream_messages parent_header
         execution_future stream_messages cls_stream_messages];
    try rewrite El; repeat split; auto;
    rewrite forallb_app, Hs; cbn; now rewrite Hx.
Qed.

(** A well-formed message is taken in without an exception, and leaves
    the handler ready for the next one, unless it is an idle status for
    the key of a handler whose future is resolved already. *)
Lemma on_recv_well_formed (self : handler) (msg : pyval) :
  ready self ->
  well_formed msg = true ->
  (forall key,
      parent_header self = Some key ->
      kind_for key msg = Some KIdle ->
      results self = []) ->
  exists self', on_recv self msg = Return self' /\ ready self'.
Proof.
  intros R W P. pose proof R as (Hk & Hf & Hs).
  destruct (parent_header self) as [key|] eqn:Hkey; [|congruence].
  unfold well_formed in W.
  destruct (correlation_key msg) as [mid|] eqn:Hmid; [|discriminate].
  destruct (classify msg) as [k|] eqn:Hc; [|discriminate].
  destruct (Py.eq mid key) eqn:Heq.
  - assert (Hkind : kind_for key msg = Some k).
    { unfold kind_for. now rewrite Hmid, Heq, Hc. }
    rewrite (on_recv_kind _ _ _ _ Hkey Hkind).
    destruct k; cbn [apply_kind].
    + specialize (P key eq_refl Hkind). unfold results in P.
      unfold idle_result.
      destruct (join_returns _ Hs) as [body ->]. cbn [res_bind].
      unfold get_execution_future, set_result.
      destruct (execution_future self) as [f|] eqn:Ef; [|congruence].
      assert (Efr : future_result f = None)
        by (destruct (future_result f); [discriminate|reflexivity]).
      destruct (Py.truthy (error_message self));
        [|destruct (Py.truthy (execute_result self)
                    && Py.is_not_empty_str (execute_result self))];
        cbn [res_bind]; rewrite Efr; cbn [res_bind];
        eexists; (split; [reflexivity|]);
        unfold ready, get_stream_messages in *; cbn;
        rewrite Hkey; repeat split; auto; discriminate.
    + eexists. split; [reflexivity|].
      unfold ready, get_stream_messages in *; cbn. rewrite Hkey. auto.
    + eexists. split; [reflexivity|]. apply ready_append; auto.
    + eexists. split; [reflexivity|].
      unfold ready, get_stream_messages in *; cbn. rewrite Hkey. auto.
    + eexists. split; [reflexivity|]. unfold ready. rewrite Hkey. auto.
  - rewrite (on_recv_other_key _ _ _ _ Hkey Hmid Heq).
    eexists. split; [reflexivity|]. unfold ready. rewrite Hkey. auto.
Qed.

(** C8 as the code has it: a message that has the fields [on_recv] reads
    does not make it raise, from any handler that is in the middle of a
    request, provided an idle status for the key finds the future still
    pending (on a resolved one [set_result] raises); and when such a
    message is for another key or of a type [on_recv] does not know, the
    handler is left as it was. *)
Theorem C8_well_formed_message_never_raises
    (self : handler) (msg : pyval) :
  ready self ->
  well_formed msg = true ->
  (forall key,
      parent_header self = Some key ->
      kind_for key msg = Some KIdle ->
      results self = []) ->
  exists self',
    on_recv self msg = Return self' /\
    ready self' /\
    (forall key,
        parent_header self = Some key ->
        kind_for key msg = None \/ kind_for key msg = Some KOther ->
        self' = self).
Proof.
  intros R W P.
  destruct (on_recv_well_formed self msg R W P) as (s & Hs & Rs).
  exists s. split; [exact Hs|]. split; [exact Rs|].
  intros key Hkey D. pose proof (on_recv_returns _ _ _ _ Hkey Hs) as H.
  destruct D as [D|D]; rewrite D in H.
  - exact H.
  - cbn [apply_kind] in H. congruence.
Qed.

Lemma C8_well_formed_message_never_raises_witness :
  exists self',
    on_recv (waiting (PyStr "k")) (idle_message (PyStr "k")) =
      Return self' /\
    ready self' /\
    (forall key,
        parent_header (waiting (PyStr "k")) = Some key ->
        kind_for key (idle_message (PyStr "k")) = None \/
        kind_for key (idle_message (PyStr "k")) = Some KOther ->
        self' = waiting (PyStr "k")).
Proof.
  apply (C8_well_formed_message_never_raises (waiting (PyStr "k"))
           (idle_message (PyStr "k"))).
  - unfold ready. cbn. repeat split; discriminate.
  - reflexivity.
  - intros key _ _. reflexivity.
Defined.

(** ** The calls a coroutine makes *)

Section Calls.

Variable E : env.
Variable P : call -> bool.

Lemma only_ret {A} (a : A) : only P (ret a).
Proof.
  intros w o w' H. injection H as <- <-. exists [].
  now rewrite app_nil_r.
Qed.

Lemma only_modify (f : handler -> handler) : only P (modify f).
Proof.
  intros w o w' H. injection H as <- <-. exists [].
  now rewrite app_nil_r.
Qed.

Lemma only_lift {A} (r : res A) : only P (lift r).
Proof.
  intros w o w' H. unfold lift in H. exists []. rewrite app_nil_r.
  destruct r; injection H as <- <-; auto.
Qed.

Lemma only_wait : only P (wait_execution_future E).
Proof.
  intros w o w' H. unfold wait_execution_future in H. exists [].
  rewrite app_nil_r.
  destruct (deliver (fst w) (inbox E)) as [s [r|]].
  - injection H as <- <-. auto.
  - destruct (wait_raises E); injection H as <- <-; auto.
Qed.

Lemma only_perform (c : call) : P c = true -> only P (perform E c).
Proof.
  intros Hc w o w' H. injection H as <- <-. exists [c]. cbn.
  now rewrite Hc.
Qed.

Lemma only_bind {A B} (m : coro A) (k : A -> coro B) :
  only P m -> (forall a, only P (k a)) -> only P (bind m k).
Proof.
  intros Hm Hk w o w' H. unfold bind in H.
  destruct (m w) as [[a|e|] w1] eqn:E1.
  - destruct (Hm _ _ _ E1) as (l1 & T1 & P1).
    destruct (Hk a _ _ _ H) as (l2 & T2 & P2).
    exists (l1 ++ l2)%list.
    rewrite T2, T1, app_assoc, forallb_app, P1, P2. auto.
  - injection H as <- <-. eauto.
  - injection H as <- <-. eauto.
Qed.

End Calls.

Create HintDb calls.
#[local] Hint Resolve only_ret only_modify only_lift only_wait only_bind
  : calls.

Lemma keeps_lease_filter (l : list call) :
  forallb keeps_lease l = true ->
  filter is_acquire l = [] /\ filter is_release l = [].
Proof.
  induction l as [|c l IH]; cbn; auto.
  intros H. apply andb_true_iff in H as [Hc Hl].
  apply andb_true_iff in Hc as [Ha Hr].
  apply negb_true_iff in Ha, Hr. rewrite Ha, Hr. auto.
Qed.

(** A [try]/[finally] that is left, by return or by exception, has run its
    body to an end and then its cleanup. *)
Lemma try_finally_left {A} (body : coro A) (cleanup : coro unit)
    (w w' : world) (o : outcome A) :
  try_finally body cleanup w = (o, w') ->
  o <> Suspended ->
  exists o1 w1 o2,
    body w = (o1, w1) /\ o1 <> Suspended /\
    cleanup w1 = (o2, w') /\ o2 <> Suspended.
Proof.
  unfold try_finally. intros H Ho.
  destruct (body w) as [[a|e|] w1]; [| |injection H as <- <-; congruence];
    destruct (cleanup w1) as [[u|e'|] w2] eqn:C; injection H as <- <-;
    try congruence;
    do 3 eexists; (split; [reflexivity|]); (split; [discriminate|]);
    (split; [exact C|discriminate]).
Qed.

(** ** Claims about the request coroutine *)

(** The body of the [try] block neither acquires nor releases. *)
Lemma body_keeps_lease (E : env) (kernel_id : pyval) (source_code : string) :
  only keeps_lease
    (perform E (Listen kernel_id) ;;
     request_code <- lift (request_code E) ;;
     perform E (Execute request_code) ;;
     msg_id <- perform E (Execute source_code) ;;
     modify (set_parent_header msg_id) ;;
     result <- wait_execution_future E ;;
     perform E (SetHeader "Content-Type" "text/plain") ;;
     perform E (SetStatus (status result)) ;;
     perform E (Write (content result)) ;;
     ret tt)%coro.
Proof.
  repeat (apply only_bind; [|intros ?]);
    auto using only_perform with calls.
Qed.

(** The [finally] block starts with the release and adds at most
    [finish]. *)
Lemma cleanup_releases (E : env) (kernel_id : pyval) (w w' : world)
    (o : outcome unit) :
  (perform E (Release kernel_id) ;; perform E Finish ;; ret tt)%coro w
    = (o, w') ->
  exists l, snd w' = (snd w ++ Release kernel_id :: l)%list /\
            forallb keeps_lease l = true.
Proof.
  unfold bind, perform, ret. cbn [fst snd]. intros H.
  destruct (oracle E (snd w) (Release kernel_id)).
  - destruct (oracle E (snd w ++ [Release kernel_id])%list Finish);
      injection H as <- <-; exists [Finish]; cbn [snd];
      now rewrite <- app_assoc.
  - injection H as <- <-. exists []. auto.
  - injection H as <- <-. exists []. auto.
Qed.



(** C9: a request whose method has no entry in [sources] sets status 405
    and finishes; it makes no call on the pool or the kernel client (no
    acquire, no listener, no submission, no release). *)
Theorem C9_unsupported_method_405
    (E : env) (h : handler) (o : outcome unit) (w : world) :
  Py.assoc (request_method E) (sources E) = None ->
  _handle_request E (h, []) = (o, w) ->
  snd w = match oracle E [] (SetStatus 405) with
          | Done _ => [SetStatus 405; Finish]
          | _ => [SetStatus 405]
          end /\
  filter is_pool_call (snd w) = [].
Proof.
  intros Hsrc H. unfold _handle_request in H. rewrite Hsrc in H.
  unfold bind, modify, perform, ret in H. cbn [fst snd app] in H.
  destruct (oracle E [] (SetStatus 405)).
  - destruct (oracle E [SetStatus 405] Finish); injection H as <- <-;
      split; reflexivity.
  - injection H as <- <-. split; reflexivity.
  - injection H as <- <-. split; reflexivity.
Qed.

Lemma C9_unsupported_method_405_witness :
  [SetStatus 405; Finish] = [SetStatus 405; Finish] /\
  filter is_pool_call [SetStatus 405; Finish] = [].
Proof.
  apply (C9_unsupported_method_405
           (example_env "PUT" (Return "REQUEST = {}") [])
           new_handler (Done tt)
           (set_error_message PyNone
              (set_stream_messages []
                 (set_execute_result PyNone new_handler)),
            [SetStatus 405; Finish])).
  - reflexivity.
  - reflexivity.
Defined.

(** The scenario of the specification: [GET] is configured with
    [print(1+1)], the kernel streams ["2"] and goes idle; the response is
    200 with body ["2"] and the kernel is released. *)
Example scenario_get :
  let E := example_env "GET" (Return "REQUEST = {}")
             [stream_message (PyStr "k") "2"; idle_message (PyStr "k")] in
  fst (_handle_request E (new_handler, [])) = Done tt /\
  snd (snd (_handle_request E (new_handler, []))) =
    [Acquire; Listen (PyStr "kernel-1"); Execute "REQUEST = {}";
     Execute "print(1+1)"; SetHeader "Content-Type" "text/plain";
     SetStatus 200; Write (PyStr "2"); Release (PyStr "kernel-1"); Finish].
Proof. split; reflexivity. Qed.

(** A handler that has a list of its own never reads or writes the
    class-level one. *)
Lemma on_recv_agree (a b : handler) (msg : pyval) :
  agree a b ->
  stream_messages a <> None ->
  match on_recv a msg, on_recv b msg with
  | Return a', Return b' =>
      agree a' b' /\ stream_messages a' <> None /\
      cls_stream_messages a' = cls_stream_messages a /\
      cls_stream_messages b' = cls_stream_messages b
  | Raise e, Raise e' => e = e'
  | _, _ => False
  end.
Proof.
  destruct a as [ca ra sa ea pa fa], b as [cb rb sb eb pb fb].
  unfold agree. cbn. intros (<- & <- & <- & <- & <-) Hs.
  destruct sa as [l|]; [clear Hs|congruence].
  rewrite !on_recv_unfold.
  destruct (correlation_key msg) as [mid|]; cbn [res_bind]; auto.
  unfold get_parent_header. cbn [parent_header].
  destruct pa as [key|]; cbn [res_bind]; auto.
  destruct (Py.eq mid key).
  2:{ cbn. repeat split; auto; discriminate. }
  destruct (classify msg) as [k|]; cbn [res_bind]; auto.
  destruct k; cbn [apply_kind].
  - unfold idle_result, get_stream_messages, get_execution_future.
    cbn [error_message execute_result stream_messages execution_future].
    destruct (Py.truthy ea);
      [|destruct (Py.truthy ra && Py.is_not_empty_str ra);
        [|destruct (Py.join l); cbn [res_bind]; auto]];
      cbn [res_bind]; destruct fa as [[[r|]]|]; cbn [res_bind]; auto;
      cbn; repeat split; auto; discriminate.
  - cbn. repeat split; auto; discriminate.
  - cbn. repeat split; auto; discriminate.
  - cbn. repeat split; auto; discriminate.
  - cbn. repeat split; auto; discriminate.
Qed.

Lemma deliver_agree (msgs : list pyval) (a b : handler) :
  agree a b ->
  stream_messages a <> None ->
  agree (fst (deliver a msgs)) (fst (deliver b msgs)) /\
  snd (deliver a msgs) = snd (deliver b msgs) /\
  cls_stream_messages (fst (deliver a msgs)) = cls_stream_messages a /\
  cls_stream_messages (fst (deliver b msgs)) = cls_stream_messages b.
Proof.
  revert a b. induction msgs as [|m ms IH]; intros a b Hab Hs;
    cbn [deliver fst snd]; auto.
  pose proof (on_recv_agree a b m Hab Hs) as H.
  set (a' := match on_recv a m with Return s => s | Raise _ => a end).
  set (b' := match on_recv b m with Return s => s | Raise _ => b end).
  assert (agree a' b' /\ stream_messages a' <> None /\
          cls_stream_messages a' = cls_stream_messages a /\
          cls_stream_messages b' = cls_stream_messages b)
    as (Hab' & Hs' & Ca & Cb).
  { subst a' b'. destruct (on_recv a m), (on_recv b m); try tauto. }
  assert (Hr : resolved a' = resolved b').
  { unfold resolved. destruct Hab' as (_ & _ & _ & _ & ->). reflexivity. }
  rewrite <- Hr. destruct (resolved a'); cbn [fst snd].
  - auto.
  - destruct (IH a' b' Hab' Hs') as (Hf & Hsn & Ca' & Cb').
    split; [exact Hf|]. split; [exact Hsn|]. split; congruence.
Qed.

(** Case analysis on the next answer of the environment. *)
Ltac answer E :=
  match goal with
  | |- context [match oracle E ?t ?c with _ => _ end] =>
      destruct (oracle E t c); cbn [fst snd]
  | |- context [match request_code E with _ => _ end] =>
      destruct (request_code E); cbn [fst snd]
  end.

(** Where the two runs start to wait, their handlers agree. *)
Ltac wait_together E h1 h2 :=
  match goal with
  | |- context [deliver ?b (inbox E)] =>
      match goal with
      | |- context [deliver ?a (inbox E)] =>
          lazymatch a with
          | context [h1] =>
              lazymatch b with
              | context [h2] =>
                  let Hab := fresh "Hab" in
                  let Hs := fresh "Hs" in
                  assert (Hab : agree a b)
                    by (unfold agree; cbn; repeat split; auto);
                  assert (Hs : stream_messages a <> None)
                    by (cbn; discriminate);
                  destruct (deliver_agree (inbox E) a b Hab Hs)
                    as (Hf & Hr & Ca & _);
                  clear Hab Hs;
                  destruct (deliver a (inbox E)) as [sa ra];
                  destruct (deliver b (inbox E)) as [sb rb]
              end
          end
      end
  end.

(** Two requests met by the same environment do the same, whatever their
    handlers held before. *)
Lemma handle_request_independent (E : env) (h1 h2 : handler) :
  fst (_handle_request E (h1, [])) = fst (_handle_request E (h2, [])) /\
  snd (snd (_handle_request E (h1, []))) =
    snd (snd (_handle_request E (h2, []))) /\
  aggregation (fst (snd (_handle_request E (h1, [])))) =
    aggregation (fst (snd (_handle_request E (h2, [])))) /\
  cls_stream_messages (fst (snd (_handle_request E (h1, [])))) =
    cls_stream_messages h1.
Proof.
  unfold _handle_request.
  destruct (Py.assoc (request_method E) (sources E)) as [src|];
    unfold try_finally, bind, modify, perform, lift, ret; cbn [fst snd app].
  2:{ repeat answer E; auto. }
  (* acquire *)
  answer E; auto.
  (* on_recv registration *)
  answer E; [|repeat answer E; auto..].
  (* request code *)
  answer E; [|repeat answer E; auto].
  (* the two submissions *)
  answer E; [|repeat answer E; auto..].
  answer E; [|repeat answer E; auto..].
  (* the wait *)
  unfold wait_execution_future. cbn [fst snd].
  wait_together E h1 h2.
  cbn [fst snd] in Hf, Hr, Ca. subst rb.
  destruct Hf as (He & Hst & Her & _ & _).
  assert (Hagg : aggregation sa = aggregation sb)
    by (unfold aggregation; congruence).
  cbn in Ca.
  destruct ra; [|destruct (wait_raises E)]; cbn [fst snd];
    repeat answer E; auto.
Qed.

(** As [answer], keeping what the environment answered. *)
Ltac answer_eqn E :=
  match goal with
  | |- context [match oracle E ?t ?c with _ => _ end] =>
      destruct (oracle E t c) eqn:?; cbn [fst snd]
  | |- context [match request_code E with _ => _ end] =>
      destruct (request_code E) eqn:?; cbn [fst snd]
  end.

(** A request that ends before its wait: the fields are as the reset left
    them and nothing was written. *)
Ltac early_exit E :=
  repeat answer_eqn E;
  (split; [left; reflexivity|]);
  intros v Hin; cbn in Hin; intuition discriminate.

(** The fields at the end of a request are [None], the empty list and
    [None], or what the messages of this request made of them; and a body
    that is written is the body of the result those messages gave. *)
Lemma handle_request_from_reset (E : env) (h : handler) :
  (aggregation (fst (snd (_handle_request E (h, [])))) =
     (PyNone, Some [], PyNone) \/
   exists key,
     waits_on E key /\
     aggregation (fst (snd (_handle_request E (h, [])))) =
       aggregation (fst (deliver (waiting key) (inbox E)))) /\
  (forall v,
      In (Write v) (snd (snd (_handle_request E (h, [])))) ->
      exists key r,
        waits_on E key /\
        snd (deliver (waiting key) (inbox E)) = Some r /\
        v = content r /\
        In (SetStatus (status r)) (snd (snd (_handle_request E (h, []))))).
Proof.
  unfold _handle_request.
  destruct (Py.assoc (request_method E) (sources E)) as [src|] eqn:Hsrc;
    unfold try_finally, bind, modify, perform, lift, ret; cbn [fst snd app].
  2:{ early_exit E. }
  destruct (oracle E [] Acquire) as [kid|e|] eqn:Hacq; cbn [fst snd];
    [|early_exit E..].
  destruct (oracle E [Acquire] (Listen kid)) as [lis|e|] eqn:Hlis;
    cbn [fst snd]; [|early_exit E..].
  destruct (request_code E) as [code|e] eqn:Hcode; cbn [fst snd];
    [|early_exit E].
  destruct (oracle E [Acquire; Listen kid] (Execute code)) as [sub|e|]
    eqn:Hsub; cbn [fst snd app]; [|early_exit E..].
  destruct (oracle E [Acquire; Listen kid; Execute code] (Execute src))
    as [key|e|] eqn:Hkey; cbn [fst snd]; [|early_exit E..].
  assert (W : waits_on E key).
  { exists src, code, kid, lis, sub. repeat split; assumption. }
  unfold wait_execution_future. cbn [fst snd].
  match goal with
  | |- context [deliver ?a (inbox E)] =>
      lazymatch a with
      | context [h] =>
          assert (Hab : agree (waiting key) a)
            by (unfold agree; cbn; repeat split; auto);
          assert (Hs : stream_messages (waiting key) <> None)
            by (cbn; discriminate);
          destruct (deliver_agree (inbox E) _ _ Hab Hs) as (Hf & Hr & _ & _);
          clear Hab Hs;
          destruct (deliver a (inbox E)) as [sa ra]
      end
  end.
  cbn [fst snd] in Hf, Hr.
  assert (Hagg : aggregation sa =
                 aggregation (fst (deliver (waiting key) (inbox E)))).
  { destruct Hf as (He & Hst & Her & _ & _). unfold aggregation.
    congruence. }
  destruct ra as [r|]; [|destruct (wait_raises E)]; cbn [fst snd];
    repeat answer_eqn E;
    (split; [right; exists key; split; [exact W|exact Hagg]|]);
    intros v Hin; cbn in Hin; intuition (try discriminate);
    match goal with
    | H : Write _ = Write _ |- _ => injection H as <-
    end;
    exists key, r; (split; [exact W|]); (split; [exact Hr|]);
    (split; [reflexivity|]); cbn; tauto.
Qed.

(** C10: [_handle_request] assigns [None], a new empty list and [None] to
    the three aggregation fields before it does anything else, and a new
    future and the new key before it waits.  So whatever two handlers held
    before (fields left by an earlier request, or only the class-level
    defaults with whatever the shared list has collected), the same
    environment gives the same outcome, the same calls with the same
    status and body, and the same aggregation fields at the end; and the
    class-level list is left as it was.  The fields at the end are
    [None], the empty list and [None] when the request ended before its
    wait (unconfigured method, [acquire] or a later call not returning),
    and otherwise what the messages delivered during this request made of
    [None], the empty list and [None]; and a body that is written, with
    its status, is that of the result these messages gave from there. *)
Theorem C10_request_starts_from_reset_state (E : env) (h1 h2 : handler) :
  fst (_handle_request E (h1, [])) = fst (_handle_request E (h2, [])) /\
  snd (snd (_handle_request E (h1, []))) =
    snd (snd (_handle_request E (h2, []))) /\
  aggregation (fst (snd (_handle_request E (h1, [])))) =
    aggregation (fst (snd (_handle_request E (h2, [])))) /\
  cls_stream_messages (fst (snd (_handle_request E (h1, [])))) =
    cls_stream_messages h1 /\
  (aggregation (fst (snd (_handle_request E (h1, [])))) =
     (PyNone, Some [], PyNone) \/
   exists key,
     waits_on E key /\
     aggregation (fst (snd (_handle_request E (h1, [])))) =
       aggregation (fst (deliver (waiting key) (inbox E)))) /\
  (forall v,
      In (Write v) (snd (snd (_handle_request E (h1, [])))) ->
      exists key r,
        waits_on E key /\
        snd (deliver (waiting key) (inbox E)) = Some r /\
        v = content r /\
        In (SetStatus (status r)) (snd (snd (_handle_request E (h1, []))))).
Proof.
  destruct (handle_request_independent E h1 h2) as (A & B & C & D).
  destruct (handle_request_from_reset E h1) as (F & G).
  repeat (split; [assumption|]). exact G.
Qed.

(** * Further properties of the listener *)

(** What one message for the key does to the list of chunks and to
    [execute_result]. *)
Lemma apply_kind_fields (k : kind) (self self' : handler) (l : list pyval) :
  stream_messages self = Some l ->
  apply_kind k self = Return self' ->
  stream_messages self' =
    Some (l ++ match k with KStream t => [t] | _ => [] end)%list /\
  execute_result self' =
    match k with KExecuteResult d => d | _ => execute_result self end /\
  cls_stream_messages self' = cls_stream_messages self.
Proof.
  intros Hl. destruct k; cbn [apply_kind]; intros H.
  - destruct (idle_result self); cbn [res_bind] in H; [|discriminate].
    destruct (get_execution_future self) as [f|]; cbn [res_bind] in H;
      [|discriminate].
    destruct (set_result f _); cbn [res_bind] in H; [|discriminate].
    injection H as <-. cbn. now rewrite Hl, app_nil_r.
  - injection H as <-. cbn. now rewrite Hl, app_nil_r.
  - injection H as <-. unfold append_stream_message. rewrite Hl. cbn. auto.
  - injection H as <-. cbn. now rewrite Hl, app_nil_r.
  - injection H as <-. now rewrite Hl, app_nil_r.
Qed.

Lemma on_recv_all_fields (key : pyval) (msgs : list pyval)
    (self self' : handler) (l : list pyval) :
  parent_header self = Some key ->
  stream_messages self = Some l ->
  on_recv_all self msgs = Return self' ->
  stream_messages self' = Some (l ++ stream_texts key msgs)%list /\
  execute_result self' = last_data key msgs (execute_result self) /\
  cls_stream_messages self' = cls_stream_messages self.
Proof.
  revert self l. induction msgs as [|m ms IH]; intros self l Hkey Hl H;
    cbn [on_recv_all] in H.
  - injection H as <-. cbn. now rewrite app_nil_r.
  - destruct (on_recv self m) as [s|] eqn:E; cbn [res_bind] in H;
      [|discriminate].
    assert (Hs : parent_header s = Some key).
    { rewrite (on_recv_parent_header _ _ _ E). exact Hkey. }
    pose proof (on_recv_returns _ _ _ _ Hkey E) as R.
    unfold stream_texts, last_data. cbn [flat_map fold_left].
    fold (stream_texts key ms).
    destruct (kind_for key m) as [k|].
    + destruct (apply_kind_fields k self s l Hl R) as (S1 & S2 & S3).
      destruct (IH s _ Hs S1 H) as (T1 & T2 & T3).
      rewrite T1, T2, T3, S2, S3, <- app_assoc.
      unfold last_data. destruct k; auto.
    + subst s. destruct (IH self l Hkey Hl H) as (T1 & T2 & T3).
      rewrite T1, T2, T3. auto.
Qed.

(** X1: a status message for the key whose [execution_state] is not
    [idle] (the kernel's [busy] and [starting]) leaves the handler as it
    was: the first test fails on its second half and no [elif] matches the
    type [status]. *)
Theorem X1_other_status_changes_nothing
    (self : handler) (key msg ph msg_id hd c st : pyval) :
  parent_header self = Some key ->
  Py.getitem msg "parent_header" = Return ph ->
  Py.getitem ph "msg_id" = Return msg_id ->
  Py.eq msg_id key = true ->
  Py.getitem msg "header" = Return hd ->
  Py.getitem hd "msg_type" = Return (PyStr "status") ->
  Py.getitem msg "content" = Return c ->
  Py.getitem c "execution_state" = Return st ->
  Py.eq st (PyStr "idle") = false ->
  on_recv self msg = Return self.
Proof.
  intros Hkey Hph Hid Heq Hhd Hty Hc Hst Hne. unfold on_recv.
  rewrite Hph. cbn [res_bind]. rewrite Hid. cbn [res_bind].
  unfold get_parent_header. rewrite Hkey. cbn [res_bind]. rewrite Heq.
  rewrite Hhd. cbn [res_bind]. rewrite Hty. cbn [res_bind].
  unfold is_idle_status. cbn [Py.eq String.eqb Ascii.eqb Bool.eqb].
  rewrite Hc. cbn [res_bind]. rewrite Hst. cbn [res_bind]. rewrite Hne.
  reflexivity.
Qed.

Lemma X1_other_status_changes_nothing_witness :
  on_recv (waiting (PyStr "k"))
    (message (PyStr "k") "status" [("execution_state", PyStr "busy")]) =
  Return (waiting (PyStr "k")).
Proof.
  apply (X1_other_status_changes_nothing _ (PyStr "k") _
           (PyDict [("msg_id", PyStr "k")]) (PyStr "k")
           (PyDict [("msg_type", PyStr "status")])
           (PyDict [("execution_state", PyStr "busy")]) (PyStr "busy"));
    reflexivity.
Defined.

(** X2: the chunks collected after a run of messages are the chunks held
    before followed by the texts of the stream messages for the key, in
    the order they arrived, whatever other messages came in between. *)
Theorem X2_chunks_in_arrival_order
    (self self' : handler) (key : pyval) (l msgs : list pyval) :
  parent_header self = Some key ->
  stream_messages self = Some l ->
  on_recv_all self msgs = Return self' ->
  stream_messages self' = Some (l ++ stream_texts key msgs)%list.
Proof.
  intros Hkey Hl H. exact (proj1 (on_recv_all_fields _ _ _ _ _ Hkey Hl H)).
Qed.

Lemma X2_chunks_in_arrival_order_witness :
  stream_messages
    (set_error_message (PyStr (format_error (PyStr "E") (PyStr "v")))
       (set_stream_messages [PyStr "a"; PyStr "b"] (waiting (PyStr "k")))) =
  Some ([] ++ stream_texts (PyStr "k")
                [stream_message (PyStr "k") "a";
                 stream_message (PyStr "other") "x";
                 error_message_of (PyStr "k") "E" "v";
                 stream_message (PyStr "k") "b"])%list.
Proof.
  apply (X2_chunks_in_arrival_order (waiting (PyStr "k")) _ (PyStr "k"));
    reflexivity.
Defined.

(** X3: [execute_result] after a run of messages holds the data of the
    last [execute_result] message for the key (a later one overwrites an
    earlier one), and what it held before when there was none. *)
Theorem X3_last_execute_result_wins
    (self self' : handler) (key : pyval) (l msgs : list pyval) :
  parent_header self = Some key ->
  stream_messages self = Some l ->
  on_recv_all self msgs = Return self' ->
  execute_result self' = last_data key msgs (execute_result self).
Proof.
  intros Hkey Hl H.
  exact (proj1 (proj2 (on_recv_all_fields _ _ _ _ _ Hkey Hl H))).
Qed.

Lemma X3_last_execute_result_wins_witness :
  execute_result
    (set_execute_result (PyInt 2)
       (set_stream_messages [PyStr "a"] (waiting (PyStr "k")))) =
  last_data (PyStr "k")
    [execute_result_message (PyStr "k") (PyInt 1);
     stream_message (PyStr "k") "a";
     execute_result_message (PyStr "k") (PyInt 2)]
    (execute_result (waiting (PyStr "k"))).
Proof.
  apply (X3_last_execute_result_wins (waiting (PyStr "k")) _ (PyStr "k") []);
    reflexivity.
Defined.

Lemma results_at_most_one (self : handler) :
  (List.length (results self) <= 1)%nat.
Proof.
  unfold results. destruct (execution_future self) as [[[r|]]|]; cbn; lia.
Qed.

Lemma on_recv_all_results (key : pyval) (msgs : list pyval)
    (self self' : handler) :
  parent_header self = Some key ->
  on_recv_all self msgs = Return self' ->
  exists added,
    results self' = (results self ++ added)%list /\
    List.length added = count_idle key msgs.
Proof.
  revert self. induction msgs as [|m ms IH]; intros self Hkey H;
    cbn [on_recv_all] in H.
  - injection H as <-. exists []. now rewrite app_nil_r.
  - destruct (on_recv self m) as [s|] eqn:E; cbn [res_bind] in H;
      [|discriminate].
    assert (Hs : parent_header s = Some key).
    { rewrite (on_recv_parent_header _ _ _ E). exact Hkey. }
    destruct (IH s Hs H) as (added & Hres & Hlen).
    pose proof (on_recv_returns _ _ _ _ Hkey E) as R.
    unfold count_idle. cbn [filter]. fold (count_idle key ms).
    destruct (kind_for key m) as [k|]; cbn [is_idle_kind].
    + pose proof (apply_kind_future k self s R) as F.
      destruct k.
      * destruct F as (r & _ & F0 & Fr). exists (r :: added).
        cbn [List.length]. rewrite Hres, Fr, F0, Hlen. auto.
      * exists added. unfold results in *. rewrite <- F. auto.
      * exists added. unfold results in *. rewrite <- F. auto.
      * exists added. unfold results in *. rewrite <- F. auto.
      * exists added. unfold results in *. rewrite <- F. auto.
    + subst s. exists added. auto.
Qed.

(** X4: a run of messages that [on_recv] returns from resolves the future
    once for each idle status for the key in it and for nothing else, so
    it holds at most one such idle when the future was pending and none
    when it was resolved already; a result the future held before the run
    is still the one it holds after. *)
Theorem X4_one_set_result_per_idle
    (self self' : handler) (key : pyval) (msgs : list pyval) :
  parent_header self = Some key ->
  on_recv_all self msgs = Return self' ->
  (List.length (results self) + count_idle key msgs <= 1)%nat /\
  exists added,
    results self' = (results self ++ added)%list /\
    List.length added = count_idle key msgs.
Proof.
  intros Hkey H.
  destruct (on_recv_all_results key msgs self self' Hkey H)
    as (added & Hres & Hlen).
  split; [|eauto].
  pose proof (results_at_most_one self') as L.
  rewrite Hres, length_app, Hlen in L. exact L.
Qed.

Lemma X4_one_set_result_per_idle_witness :
  (List.length (results (waiting (PyStr "k"))) +
   count_idle (PyStr "k")
     [stream_message (PyStr "k") "a"; idle_message (PyStr "other");
      idle_message (PyStr "k"); stream_message (PyStr "k") "late"]
   <= 1)%nat /\
  exists added,
    results
      (set_execution_future (mk_future (Some (mk_result 200 (PyStr "a"))))
         (set_stream_messages [PyStr "a"; PyStr "late"]
            (waiting (PyStr "k")))) =
      (results (waiting (PyStr "k")) ++ added)%list /\
    List.length added =
      count_idle (PyStr "k")
        [stream_message (PyStr "k") "a"; idle_message (PyStr "other");
         idle_message (PyStr "k"); stream_message (PyStr "k") "late"].
Proof.
  apply (X4_one_set_result_per_idle (waiting (PyStr "k")) _ (PyStr "k"));
    reflexivity.
Defined.

(** X5: messages that carry another correlation key can be interleaved
    anywhere without effect: a run of messages that all carry some key
    ends as the run of those for the handler's key alone does, in the same
    handler or in the same exception. *)
Theorem X5_other_keys_do_not_interfere
    (self : handler) (key : pyval) (msgs : list pyval) :
  parent_header self = Some key ->
  forallb has_key msgs = true ->
  on_recv_all self msgs = on_recv_all self (filter (bears_key key) msgs).
Proof.
  revert self. induction msgs as [|m ms IH]; intros self Hkey Hall;
    cbn [forallb filter on_recv_all] in *; auto.
  apply andb_true_iff in Hall as [Hm Hms].
  unfold has_key in Hm. unfold bears_key at 1.
  destruct (correlation_key m) as [mid|] eqn:Hmid; [|discriminate].
  destruct (Py.eq mid key) eqn:Heq.
  - cbn [on_recv_all].
    destruct (on_recv self m) as [s|] eqn:E; cbn [res_bind]; auto.
    apply IH; auto.
    rewrite (on_recv_parent_header _ _ _ E). exact Hkey.
  - rewrite (on_recv_other_key _ _ _ _ Hkey Hmid Heq). cbn [res_bind].
    apply IH; auto.
Qed.

Lemma X5_other_keys_do_not_interfere_witness :
  on_recv_all (waiting (PyStr "k"))
    [stream_message (PyStr "other") "x"; stream_message (PyStr "k") "2";
     idle_message (PyStr "other"); idle_message (PyStr "k")] =
  on_recv_all (waiting (PyStr "k"))
    (filter (bears_key (PyStr "k"))
       [stream_message (PyStr "other") "x"; stream_message (PyStr "k") "2";
        idle_message (PyStr "other"); idle_message (PyStr "k")]).
Proof.
  apply (X5_other_keys_do_not_interfere (waiting (PyStr "k")) (PyStr "k"));
    reflexivity.
Defined.

Lemma on_recv_all_error_truthy (key : pyval) (msgs : list pyval)
    (self self' : handler) :
  parent_header self = Some key ->
  on_recv_all self msgs = Return self' ->
  Py.truthy (error_message self') =
  (Py.truthy (error_message self)
   || existsb (fun m => is_error_kind (kind_for key m)) msgs)%bool.
Proof.
  revert self. induction msgs as [|m ms IH]; intros self Hkey H;
    cbn [on_recv_all existsb] in *.
  - injection H as <-. now rewrite orb_false_r.
  - destruct (on_recv self m) as [s|] eqn:E; cbn [res_bind] in H;
      [|discriminate].
    assert (Hs : parent_header s = Some key).
    { rewrite (on_recv_parent_header _ _ _ E). exact Hkey. }
    rewrite (IH s Hs H).
    pose proof (on_recv_returns _ _ _ _ Hkey E) as R.
    destruct (kind_for key m) as [k|] eqn:Hk.
    + destruct (is_error_kind (Some k)) eqn:Hek.
      * destruct k; try discriminate. cbn [apply_kind] in R.
        injection R as <-. cbn. now rewrite orb_true_r.
      * rewrite (apply_kind_error_message k self s R Hek).
        now rewrite orb_false_l.
    + subst s. reflexivity.
Qed.

(** X6: from a handler with no error recorded, the result computed at
    idle has status 500 exactly when an error message for the key was
    among the messages received, and status 200 otherwise; no other
    status is ever produced. *)
Theorem X6_status_500_iff_error_received
    (self self' : handler) (key : pyval) (msgs : list pyval)
    (r : py_result) :
  parent_header self = Some key ->
  error_message self = PyNone ->
  on_recv_all self msgs = Return self' ->
  idle_result self' = Return r ->
  status r =
    if existsb (fun m => is_error_kind (kind_for key m)) msgs
    then 500 else 200.
Proof.
  intros Hkey Herr H Hr.
  pose proof (on_recv_all_error_truthy _ _ _ _ Hkey H) as T.
  rewrite Herr in T. cbn [Py.truthy orb] in T. rewrite <- T.
  unfold idle_result in Hr.
  destruct (Py.truthy (error_message self')).
  - injection Hr as <-. reflexivity.
  - destruct (Py.truthy (execute_result self')
              && Py.is_not_empty_str (execute_result self')).
    + injection Hr as <-. reflexivity.
    + destruct (Py.join (get_stream_messages self')); cbn [res_bind] in Hr;
        [|discriminate].
      injection Hr as <-. reflexivity.
Qed.

Lemma X6_status_500_iff_error_received_witness :
  status (mk_result 500 (PyStr (format_error (PyStr "E") (PyStr "v")))) =
  if existsb (fun m => is_error_kind (kind_for (PyStr "k") m))
       [stream_message (PyStr "k") "a";
        error_message_of (PyStr "k") "E" "v"]
  then 500 else 200.
Proof.
  apply (X6_status_500_iff_error_received (waiting (PyStr "k"))
           (set_error_message (PyStr (format_error (PyStr "E") (PyStr "v")))
              (set_stream_messages [PyStr "a"] (waiting (PyStr "k"))))
           (PyStr "k")); reflexivity.
Defined.

(** X7: an [execute_result] whose data is falsy ([None], [0], [False], an
    empty str, list or dict) is stored but does not count as a result at
    idle: with no error recorded the body is the joined stream, status
    200, as if no result had arrived. *)
Theorem X7_falsy_result_falls_back_to_stream
    (self : handler) (key er data idle : pyval) (fut : Future)
    (body : string) :
  parent_header self = Some key ->
  execution_future self = Some fut ->
  Py.truthy (error_message self) = false ->
  kind_for key er = Some (KExecuteResult data) ->
  Py.truthy data = false ->
  kind_for key idle = Some KIdle ->
  Py.join (get_stream_messages self) = Return body ->
  on_recv_all self [er; idle] =
    (fut' <- set_result fut (mk_result 200 (PyStr body)) ;;
     Return (set_execution_future fut' (set_execute_result data self))).
Proof.
  intros Hkey Hfut Herr Her Hdata Hidle Hjoin. cbn [on_recv_all].
  rewrite (on_recv_kind _ _ _ _ Hkey Her). cbn [apply_kind res_bind].
  rewrite (on_recv_kind _ key _ KIdle); [|exact Hkey|exact Hidle].
  cbn [apply_kind]. rewrite idle_result_stream.
  - unfold get_stream_messages in *.
    cbn [set_execute_result stream_messages cls_stream_messages].
    rewrite Hjoin. cbn [res_bind]. unfold get_execution_future.
    cbn [set_execute_result execution_future]. rewrite Hfut.
    cbn [res_bind]. destruct (set_result fut _); reflexivity.
  - exact Herr.
  - exact Hdata.
Qed.

Lemma X7_falsy_result_falls_back_to_stream_witness :
  on_recv_all (set_stream_messages [PyStr "out"] (waiting (PyStr "k")))
    [execute_result_message (PyStr "k") (PyDict []);
     idle_message (PyStr "k")] =
  (fut' <- set_result new_future (mk_result 200 (PyStr "out")) ;;
   Return (set_execution_future fut'
             (set_execute_result (PyDict [])
                (set_stream_messages [PyStr "out"] (waiting (PyStr "k")))))).
Proof.
  apply (X7_falsy_result_falls_back_to_stream
           (set_stream_messages [PyStr "out"] (waiting (PyStr "k")))
           (PyStr "k")); reflexivity.
Defined.

Lemma join_raises (xs : list pyval) :
  forallb is_str xs = false -> Py.join xs = Raise TypeError.
Proof.
  induction xs as [|x xs IH]; cbn [forallb Py.join]; [discriminate|].
  destruct x; cbn [is_str andb]; try reflexivity.
  intros H. rewrite (IH H). reflexivity.
Qed.

(** X8: a stream message whose text is not a str is collected like any
    other, and the failure comes later: with no error and no truthy
    result recorded, the next idle raises [TypeError] out of the join and
    [set_result] is not reached. *)
Theorem X8_non_str_chunk_raises_at_idle
    (self : handler) (key chunk text idle : pyval) (l : list pyval) :
  parent_header self = Some key ->
  stream_messages self = Some l ->
  Py.truthy (error_message self) = false ->
  Py.truthy (execute_result self) = false ->
  kind_for key chunk = Some (KStream text) ->
  is_str text = false ->
  kind_for key idle = Some KIdle ->
  on_recv self chunk = Return (set_stream_messages (l ++ [text]) self) /\
  on_recv_all self [chunk; idle] = Raise TypeError.
Proof.
  intros Hkey Hl Herr Hres Hchunk Htext Hidle.
  assert (Hstep : on_recv self chunk =
                  Return (set_stream_messages (l ++ [text]) self)).
  { rewrite (on_recv_kind _ _ _ _ Hkey Hchunk). cbn [apply_kind].
    unfold append_stream_message. now rewrite Hl. }
  split; [exact Hstep|]. cbn [on_recv_all]. rewrite Hstep. cbn [res_bind].
  rewrite (on_recv_kind _ key _ KIdle); [|exact Hkey|exact Hidle].
  cbn [apply_kind]. rewrite idle_result_stream; [|exact Herr|exact Hres].
  cbn [get_stream_messages set_stream_messages stream_messages].
  rewrite join_raises; [reflexivity|].
  rewrite forallb_app. cbn [forallb]. rewrite Htext.
  now rewrite andb_false_r.
Qed.

Lemma X8_non_str_chunk_raises_at_idle_witness :
  on_recv (waiting (PyStr "k"))
    (message (PyStr "k") "stream" [("text", PyInt 2)]) =
    Return (set_stream_messages ([] ++ [PyInt 2]) (waiting (PyStr "k"))) /\
  on_recv_all (waiting (PyStr "k"))
    [message (PyStr "k") "stream" [("text", PyInt 2)];
     idle_message (PyStr "k")] = Raise TypeError.
Proof.
  apply (X8_non_str_chunk_raises_at_idle (waiting (PyStr "k")) (PyStr "k"));
    reflexivity.
Defined.

(** * Further properties of the request coroutine *)

Lemma on_recv_not_idle_future (a a' : handler) (key m : pyval) :
  parent_header a = Some key ->
  is_idle_kind (kind_for key m) = false ->
  on_recv a m = Return a' ->
  execution_future a' = execution_future a.
Proof.
  intros Hkey Hni E. pose proof (on_recv_returns _ _ _ _ Hkey E) as R.
  destruct (kind_for key m) as [k|]; [|now subst].
  pose proof (apply_kind_future k a a' R) as F.
  destruct k; auto. discriminate.
Qed.

(** Without an idle status for the key the future stays unresolved,
    whatever else is delivered. *)
Lemma deliver_no_idle (key : pyval) (msgs : list pyval) (a : handler) :
  parent_header a = Some key ->
  resolved a = None ->
  forallb (fun m => negb (is_idle_kind (kind_for key m))) msgs = true ->
  snd (deliver a msgs) = None.
Proof.
  revert a. induction msgs as [|m ms IH]; intros a Hkey Hres Hall;
    cbn [deliver forallb] in *; auto.
  apply andb_true_iff in Hall as [Hm Hms]. apply negb_true_iff in Hm.
  set (a' := match on_recv a m with Return s => s | Raise _ => a end).
  assert (parent_header a' = Some key /\ resolved a' = None) as [Hk' Hr'].
  { subst a'. destruct (on_recv a m) as [s|] eqn:E; auto. split.
    - rewrite (on_recv_parent_header _ _ _ E). exact Hkey.
    - unfold resolved in *.
      now rewrite (on_recv_not_idle_future _ _ _ _ Hkey Hm E). }
  rewrite Hr'. apply IH; auto.
Qed.

(** The wait ends at the first idle status for the key, with the result
    computed from what the messages before it left in the handler. *)
Lemma deliver_resolves (key idle : pyval) (pre post : list pyval)
    (a s : handler) (r : py_result) :
  parent_header a = Some key ->
  execution_future a = Some new_future ->
  forallb (fun m => negb (is_idle_kind (kind_for key m))) pre = true ->
  on_recv_all a pre = Return s ->
  kind_for key idle = Some KIdle ->
  idle_result s = Return r ->
  snd (deliver a (pre ++ idle :: post)) = Some r.
Proof.
  revert a. induction pre as [|m ms IH];
    intros a Hkey Hfut Hall Hrun Hidle Hr;
    cbn [app deliver forallb on_recv_all] in *.
  - injection Hrun as <-.
    rewrite (on_recv_kind _ _ _ _ Hkey Hidle). cbn [apply_kind].
    rewrite Hr. cbn [res_bind]. unfold get_execution_future.
    rewrite Hfut. cbn [res_bind]. reflexivity.
  - apply andb_true_iff in Hall as [Hm Hms]. apply negb_true_iff in Hm.
    destruct (on_recv a m) as [a'|] eqn:E; cbn [res_bind] in Hrun;
      [|discriminate].
    pose proof (on_recv_not_idle_future _ _ _ _ Hkey Hm E) as F.
    rewrite Hfut in F.
    assert (Hk' : parent_header a' = Some key).
    { rewrite (on_recv_parent_header _ _ _ E). exact Hkey. }
    unfold resolved at 1. rewrite F. cbn [future_result new_future].
    apply IH; auto.
Qed.

(** The next answer of an environment whose collaborators all return. *)
Ltac returns E Hall :=
  match goal with
  | |- context [match oracle E ?t ?c with _ => _ end] =>
      let v := fresh "v" in
      let Hv := fresh "Hv" in
      destruct (Hall t c) as [v Hv]; rewrite Hv; clear Hv;
      cbn [fst snd app]
  end.

(** X9: when every collaborator returns and the first idle status for the
    key of the second submission arrives after messages that leave the
    handler in state [s], the coroutine returns and the calls are, in this
    order: acquire, register the listener, submit the request code, submit
    the source, set [Content-Type: text/plain], set the status and write
    the body of the result computed from [s], release the kernel acquired,
    finish.  Messages after that idle play no part. *)
Theorem X9_response_on_resolution
    (E : env) (h s : handler) (source_code code : string)
    (kernel_id key idle : pyval) (pre post : list pyval) (r : py_result) :
  Py.assoc (request_method E) (sources E) = Some source_code ->
  request_code E = Return code ->
  (forall made c, exists v, oracle E made c = Done v) ->
  oracle E [] Acquire = Done kernel_id ->
  oracle E [Acquire; Listen kernel_id; Execute code] (Execute source_code)
    = Done key ->
  inbox E = (pre ++ idle :: post)%list ->
  forallb (fun m => negb (is_idle_kind (kind_for key m))) pre = true ->
  on_recv_all (waiting key) pre = Return s ->
  kind_for key idle = Some KIdle ->
  idle_result s = Return r ->
  fst (_handle_request E (h, [])) = Done tt /\
  snd (snd (_handle_request E (h, []))) =
    [Acquire; Listen kernel_id; Execute code; Execute source_code;
     SetHeader "Content-Type" "text/plain"; SetStatus (status r);
     Write (content r); Release kernel_id; Finish].
Proof.
  intros Hsrc Hcode Hall Hacq Hkey Hin Hpre Hrun Hidle Hr.
  unfold _handle_request. rewrite Hsrc.
  unfold try_finally, bind, modify, perform, lift, ret. cbn [fst snd app].
  rewrite Hacq. cbn [fst snd app].
  returns E Hall. rewrite Hcode. cbn [fst snd app].
  returns E Hall. rewrite Hkey. cbn [fst snd app].
  unfold wait_execution_future. cbn [fst snd].
  match goal with
  | |- context [deliver ?b (inbox E)] =>
      assert (Hd : snd (deliver b (inbox E)) = Some r);
      [|destruct (deliver b (inbox E)) as [s' o']; cbn [snd] in Hd; subst o']
  end.
  { match goal with
    | |- snd (deliver ?b _) = _ =>
        assert (Hab : agree (waiting key) b)
          by (unfold agree; cbn; repeat split; auto);
        assert (Hs : stream_messages (waiting key) <> None)
          by (cbn; discriminate);
        destruct (deliver_agree (inbox E) _ _ Hab Hs) as (_ & <- & _)
    end.
    rewrite Hin. eapply deliver_resolves; eauto; reflexivity. }
  cbn [fst snd]. repeat returns E Hall. split; reflexivity.
Qed.

Lemma example_oracle_returns (made : list call) (c : call) :
  exists v, example_oracle made c = Done v.
Proof. destruct c; eexists; reflexivity. Qed.

Lemma X9_response_on_resolution_witness :
  fst (_handle_request
         (example_env "GET" (Return "REQUEST = {}")
            [stream_message (PyStr "k") "2"; idle_message (PyStr "k");
             stream_message (PyStr "k") "late"])
         (new_handler, [])) = Done tt /\
  snd (snd (_handle_request
              (example_env "GET" (Return "REQUEST = {}")
                 [stream_message (PyStr "k") "2"; idle_message (PyStr "k");
                  stream_message (PyStr "k") "late"])
              (new_handler, []))) =
    [Acquire; Listen (PyStr "kernel-1"); Execute "REQUEST = {}";
     Execute "print(1+1)"; SetHeader "Content-Type" "text/plain";
     SetStatus (status (mk_result 200 (PyStr "2")));
     Write (content (mk_result 200 (PyStr "2")));
     Release (PyStr "kernel-1"); Finish].
Proof.
  apply (X9_response_on_resolution
           (example_env "GET" (Return "REQUEST = {}")
              [stream_message (PyStr "k") "2"; idle_message (PyStr "k");
               stream_message (PyStr "k") "late"])
           new_handler
           (set_stream_messages [PyStr "2"] (waiting (PyStr "k")))
           "print(1+1)" "REQUEST = {}" (PyStr "kernel-1") (PyStr "k")
           (idle_message (PyStr "k")) [stream_message (PyStr "k") "2"]
           [stream_message (PyStr "k") "late"] (mk_result 200 (PyStr "2")));
    try reflexivity.
  exact example_oracle_returns.
Defined.

(** X10: when building the request code raises, nothing is submitted to
    the kernel and nothing is written to the response: the listener that
    was registered is followed directly by the release and [finish], and
    the exception leaves the coroutine. *)
Theorem X10_translation_failure_submits_nothing
    (E : env) (h : handler) (source_code : string) (kernel_id : pyval)
    (e : exn) :
  Py.assoc (request_method E) (sources E) = Some source_code ->
  request_code E = Raise e ->
  (forall made c, exists v, oracle E made c = Done v) ->
  oracle E [] Acquire = Done kernel_id ->
  fst (_handle_request E (h, [])) = Raised e /\
  snd (snd (_handle_request E (h, []))) =
    [Acquire; Listen kernel_id; Release kernel_id; Finish].
Proof.
  intros Hsrc Hcode Hall Hacq.
  unfold _handle_request. rewrite Hsrc.
  unfold try_finally, bind, modify, perform, lift, ret. cbn [fst snd app].
  rewrite Hacq. cbn [fst snd app].
  returns E Hall. rewrite Hcode. cbn [fst snd app].
  repeat returns E Hall. split; reflexivity.
Qed.

Lemma X10_translation_failure_submits_nothing_witness :
  fst (_handle_request
         (example_env "GET" (Raise (External "json.dumps")) [])
         (new_handler, [])) = Raised (External "json.dumps") /\
  snd (snd (_handle_request
              (example_env "GET" (Raise (External "json.dumps")) [])
              (new_handler, []))) =
    [Acquire; Listen (PyStr "kernel-1"); Release (PyStr "kernel-1"); Finish].
Proof.
  apply (X10_translation_failure_submits_nothing
           (example_env "GET" (Raise (External "json.dumps")) [])
           new_handler "print(1+1)" (PyStr "kernel-1")
           (External "json.dumps")); try reflexivity.
  exact example_oracle_returns.
Defined.

(** X11: the wait has no bound of its own.  When no idle status for the
    key is among the messages delivered and nothing is thrown into the
    wait, the coroutine stays suspended after the second submission: no
    response call is made and the kernel is not released. *)
Theorem X11_no_idle_no_release
    (E : env) (h : handler) (source_code code : string)
    (kernel_id key : pyval) :
  Py.assoc (request_method E) (sources E) = Some source_code ->
  request_code E = Return code ->
  (forall made c, exists v, oracle E made c = Done v) ->
  oracle E [] Acquire = Done kernel_id ->
  oracle E [Acquire; Listen kernel_id; Execute code] (Execute source_code)
    = Done key ->
  forallb (fun m => negb (is_idle_kind (kind_for key m))) (inbox E) = true ->
  wait_raises E = None ->
  fst (_handle_request E (h, [])) = Suspended /\
  snd (snd (_handle_request E (h, []))) =
    [Acquire; Listen kernel_id; Execute code; Execute source_code].
Proof.
  intros Hsrc Hcode Hall Hacq Hkey Hin Hwait.
  unfold _handle_request. rewrite Hsrc.
  unfold try_finally, bind, modify, perform, lift, ret. cbn [fst snd app].
  rewrite Hacq. cbn [fst snd app].
  returns E Hall. rewrite Hcode. cbn [fst snd app].
  returns E Hall. rewrite Hkey. cbn [fst snd app].
  unfold wait_execution_future. cbn [fst snd]. rewrite Hwait.
  match goal with
  | |- context [deliver ?b (inbox E)] =>
      assert (Hd : snd (deliver b (inbox E)) = None)
        by (apply (deliver_no_idle key); auto);
      destruct (deliver b (inbox E)) as [s' o']; cbn [snd] in Hd; subst o'
  end.
  split; reflexivity.
Qed.

Lemma X11_no_idle_no_release_witness :
  fst (_handle_request
         (example_env "GET" (Return "REQUEST = {}")
            [stream_message (PyStr "k") "2"; idle_message (PyStr "other")])
         (new_handler, [])) = Suspended /\
  snd (snd (_handle_request
              (example_env "GET" (Return "REQUEST = {}")
                 [stream_message (PyStr "k") "2";
                  idle_message (PyStr "other")])
              (new_handler, []))) =
    [Acquire; Listen (PyStr "kernel-1"); Execute "REQUEST = {}";
     Execute "print(1+1)"].
Proof.
  apply (X11_no_idle_no_release
           (example_env "GET" (Return "REQUEST = {}")
              [stream_message (PyStr "k") "2"; idle_message (PyStr "other")])
           new_handler "print(1+1)" "REQUEST = {}" (PyStr "kernel-1")
           (PyStr "k")); try reflexivity.
  exact example_oracle_returns.
Defined.

(** X12: [acquire] is outside the [try].  When it raises, the exception
    leaves the coroutine at once: no release is made, and [finish] is not
    called either. *)
Theorem X12_acquire_failure_ends_request
    (E : env) (h : handler) (source_code : string) (e : exn) :
  Py.assoc (request_method E) (sources E) = Some source_code ->
  oracle E [] Acquire = Raised e ->
  fst (_handle_request E (h, [])) = Raised e /\
  snd (snd (_handle_request E (h, []))) = [Acquire].
Proof.
  intros Hsrc Hacq. unfold _handle_request. rewrite Hsrc.
  unfold try_finally, bind, modify, perform, lift, ret. cbn [fst snd app].
  rewrite Hacq. split; reflexivity.
Qed.

Lemma X12_acquire_failure_ends_request_witness :
  fst (_handle_request
         (mk_env "GET" [("GET", "print(1+1)")] (Return "REQUEST = {}")
            (fun _ _ => Raised (External "PoolClosed")) [] None)
         (new_handler, [])) = Raised (External "PoolClosed") /\
  snd (snd (_handle_request
              (mk_env "GET" [("GET", "print(1+1)")] (Return "REQUEST = {}")
                 (fun _ _ => Raised (External "PoolClosed")) [] None)
              (new_handler, []))) = [Acquire].
Proof.
  apply (X12_acquire_failure_ends_request
           (mk_env "GET" [("GET", "print(1+1)")] (Return "REQUEST = {}")
              (fun _ _ => Raised (External "PoolClosed")) [] None)
           new_handler "print(1+1)" (External "PoolClosed")); reflexivity.
Defined.

(** One of the shapes the pool calls of a request can take. *)
Ltac shape n b := exists n, b; split; [lia|reflexivity].

(** X13: whatever the collaborators answer, the calls a request for a
    configured method makes on the pool and the kernel client are an
    initial part, at least two calls long once [acquire] returned, of:
    acquire, register the listener for the kernel [acquire] returned,
    submit the request code built from the request, submit the source
    configured for the method; followed by at most one release, of that
    same kernel.  When [acquire] does not return, acquire is the only
    call. *)
Theorem X13_pool_calls_in_order
    (E : env) (h : handler) (source_code : string) :
  Py.assoc (request_method E) (sources E) = Some source_code ->
  match oracle E [] Acquire with
  | Done kernel_id =>
      exists (n : nat) (released : bool),
        (2 <= n)%nat /\
        filter is_pool_call (snd (snd (_handle_request E (h, [])))) =
          (firstn n
             (Acquire :: Listen kernel_id ::
              match request_code E with
              | Return code => [Execute code; Execute source_code]
              | Raise _ => []
              end)
           ++ (if released then [Release kernel_id] else []))%list
  | _ =>
      filter is_pool_call (snd (snd (_handle_request E (h, [])))) = [Acquire]
  end.
Proof.
  intros Hsrc. unfold _handle_request. rewrite Hsrc.
  unfold try_finally, bind, modify, perform, lift, ret. cbn [fst snd app].
  destruct (oracle E [] Acquire) as [kid|e|]; cbn [fst snd];
    [|reflexivity..].
  destruct (oracle E [Acquire] (Listen kid)); cbn [fst snd];
    [|repeat answer E; first [shape 2%nat true | shape 2%nat false]..].
  destruct (request_code E) as [code|e]; cbn [fst snd];
    [|repeat answer E; first [shape 2%nat true | shape 2%nat false]].
  answer E;
    [|repeat answer E; first [shape 3%nat true | shape 3%nat false]..].
  answer E;
    [|repeat answer E; first [shape 4%nat true | shape 4%nat false]..].
  unfold wait_execution_future. cbn [fst snd].
  match goal with
  | |- context [deliver ?b (inbox E)] =>
      destruct (deliver b (inbox E)) as [s' [r|]]
  end; [|destruct (wait_raises E)]; cbn [fst snd];
    repeat answer E; first [shape 4%nat true | shape 4%nat false].
Qed.

Lemma X13_pool_calls_in_order_witness :
  match example_oracle [] Acquire with
  | Done kernel_id =>
      exists (n : nat) (released : bool),
        (2 <= n)%nat /\
        filter is_pool_call
          (snd (snd (_handle_request
                       (example_env "GET" (Return "REQUEST = {}")
                          [idle_message (PyStr "k")])
                       (new_handler, [])))) =
          (firstn n
             (Acquire :: Listen kernel_id ::
              match Return "REQUEST = {}" with
              | Return code => [Execute code; Execute "print(1+1)"]
              | Raise _ => []
              end)
           ++ (if released then [Release kernel_id] else []))%list
  | _ =>
      filter is_pool_call
        (snd (snd (_handle_request
                     (example_env "GET" (Return "REQUEST = {}")
                        [idle_message (PyStr "k")])
                     (new_handler, [])))) = [Acquire]
  end.
Proof.
  apply (X13_pool_calls_in_order
           (example_env "GET" (Return "REQUEST = {}")
              [idle_message (PyStr "k")])
           new_handler "print(1+1)").
  reflexivity.
Defined.

(** X14: an exception thrown into the wait, with no idle status for the
    key delivered before it, leaves the coroutine after the cleanup: the
    kernel is released and the request finished, and no header, status or
    body is written. *)
Theorem X14_exception_in_wait_writes_nothing
    (E : env) (h : handler) (source_code code : string)
    (kernel_id key : pyval) (e : exn) :
  Py.assoc (request_method E) (sources E) = Some source_code ->
  request_code E = Return code ->
  (forall made c, exists v, oracle E made c = Done v) ->
  oracle E [] Acquire = Done kernel_id ->
  oracle E [Acquire; Listen kernel_id; Execute code] (Execute source_code)
    = Done key ->
  forallb (fun m => negb (is_idle_kind (kind_for key m))) (inbox E) = true ->
  wait_raises E = Some e ->
  fst (_handle_request E (h, [])) = Raised e /\
  snd (snd (_handle_request E (h, []))) =
    [Acquire; Listen kernel_id; Execute code; Execute source_code;
     Release kernel_id; Finish].
Proof.
  intros Hsrc Hcode Hall Hacq Hkey Hin Hwait.
  unfold _handle_request. rewrite Hsrc.
  unfold try_finally, bind, modify, perform, lift, ret. cbn [fst snd app].
  rewrite Hacq. cbn [fst snd app].
  returns E Hall. rewrite Hcode. cbn [fst snd app].
  returns E Hall. rewrite Hkey. cbn [fst snd app].
  unfold wait_execution_future. cbn [fst snd]. rewrite Hwait.
  match goal with
  | |- context [deliver ?b (inbox E)] =>
      assert (Hd : snd (deliver b (inbox E)) = None)
        by (apply (deliver_no_idle key); auto);
      destruct (deliver b (inbox E)) as [s' o']; cbn [snd] in Hd; subst o'
  end.
  cbn [fst snd]. repeat returns E Hall. split; reflexivity.
Qed.

Lemma X14_exception_in_wait_writes_nothing_witness :
  fst (_handle_request
         (mk_env "GET" [("GET", "print(1+1)")] (Return "REQUEST = {}")
            example_oracle [stream_message (PyStr "k") "2"]
            (Some (External "cancelled")))
         (new_handler, [])) = Raised (External "cancelled") /\
  snd (snd (_handle_request
              (mk_env "GET" [("GET", "print(1+1)")] (Return "REQUEST = {}")
                 example_oracle [stream_message (PyStr "k") "2"]
                 (Some (External "cancelled")))
              (new_handler, []))) =
    [Acquire; Listen (PyStr "kernel-1"); Execute "REQUEST = {}";
     Execute "print(1+1)"; Release (PyStr "kernel-1"); Finish].
Proof.
  apply (X14_exception_in_wait_writes_nothing
           (mk_env "GET" [("GET", "print(1+1)")] (Return "REQUEST = {}")
              example_oracle [stream_message (PyStr "k") "2"]
              (Some (External "cancelled")))
           new_handler "print(1+1)" "REQUEST = {}" (PyStr "kernel-1")
           (PyStr "k") (External "cancelled")); try reflexivity.
  exact example_oracle_returns.
Defined.

(** X15: [on_recv] never assigns the correlation key, and a handler that
    has a list of its own never appends to the class-level list: after any
    run of messages both are what they were. *)
Theorem X15_run_keeps_key_and_class_list
    (self self' : handler) (key : pyval) (l msgs : list pyval) :
  parent_header self = Some key ->
  stream_messages self = Some l ->
  on_recv_all self msgs = Return self' ->
  parent_header self' = Some key /\
  cls_stream_messages self' = cls_stream_messages self.
Proof.
  intros Hkey Hl H. split.
  - rewrite (on_recv_all_parent_header _ _ _ H). exact Hkey.
  - exact (proj2 (proj2 (on_recv_all_fields _ _ _ _ _ Hkey Hl H))).
Qed.

Lemma X15_run_keeps_key_and_class_list_witness :
  parent_header
    (set_stream_messages [PyStr "a"]
       (set_cls_stream_messages [PyStr "old"] (waiting (PyStr "k")))) =
    Some (PyStr "k") /\
  cls_stream_messages
    (set_stream_messages [PyStr "a"]
       (set_cls_stream_messages [PyStr "old"] (waiting (PyStr "k")))) =
  cls_stream_messages
    (set_cls_stream_messages [PyStr "old"] (waiting (PyStr "k"))).
Proof.
  apply (X15_run_keeps_key_and_class_list
           (set_cls_stream_messages [PyStr "old"] (waiting (PyStr "k")))
           _ (PyStr "k") [] [stream_message (PyStr "k") "a"]); reflexivity.
Defined.
